(** * SAM: the persistence layer (bot/persistence/database_connector.py)
      and the bot-only message handler (bot/admin/admin.py)

    A shallow embedding of [DatabaseConnector] and of [AdminCog.on_message].
    Every method of the connector opens a [DatabaseManager] scope, sends
    statements to the storage engine, and commits (or not) before the scope
    ends.  The embedding threads the connection through a small state and
    exception monad, and keeps a journal of what was sent to the engine. *)

From Stdlib Require Import ZArith List String Ascii Bool Lia.
Import ListNotations.
Local Open Scope string_scope.
Local Open Scope list_scope.

(** ** Python values that cross the store boundary *)

Inductive value : Type :=
| VNone
| VBool (b : bool)
| VInt (z : Z)
| VStr (s : string).

Definition value_eqb (a b : value) : bool :=
  match a, b with
  | VNone, VNone => true
  | VBool x, VBool y => Bool.eqb x y
  | VInt x, VInt y => Z.eqb x y
  | VStr x, VStr y => String.eqb x y
  | _, _ => false
  end.

(** Python truthiness, as used by [if rows:] and [if is_botonly(...)]. *)
Definition truthy (v : value) : bool :=
  match v with
  | VNone => false
  | VBool b => b
  | VInt z => negb (Z.eqb z 0)
  | VStr s => negb (String.eqb s "")
  end.

(** [isinstance(v, bool)]. *)
Definition is_bool (v : value) : bool :=
  match v with
  | VBool _ => true
  | _ => false
  end.

(** A result tuple of a cursor. *)
Definition row : Type := list value.

(** ** Exceptions *)

(** [sqlite3.Error] and the subclasses the storage engine raises. *)
Inductive Error : Type :=
| BaseError (msg : string)
| IntegrityError (msg : string)
| OperationalError (msg : string)
| ProgrammingError (msg : string).

Definition str_of_Error (e : Error) : string :=
  match e with
  | BaseError m | IntegrityError m | OperationalError m | ProgrammingError m => m
  end.

Inductive exception : Type :=
| SqliteError (e : Error)
| ValueError (msg : string)
| IndexError
| FileNotFoundError (filename : string).

(** ** The persisted tables

    The schema script is not part of the sources at hand.  The tables are
    the five entities of the data model; [MessageId] sits in [GroupOffer],
    as the docstring of [update_group_exchange_message_id] says. *)

Record ModmailRow : Type := {
  MsgId : value;
  Author : value;
  Timestamp : value;
  Status : value
}.

Record BotOnlyRow : Type := {
  ChannelId : value;
  State : value
}.

Record GroupOfferRow : Type := {
  offer_UserId : value;
  offer_Course : value;
  offer_GroupNr : value;
  offer_MessageId : value
}.

Record GroupRequestRow : Type := {
  request_UserId : value;
  request_Course : value;
  request_GroupNr : value
}.

Record database : Type := {
  ModuleRole : list value;
  Modmail : list ModmailRow;
  BotOnly : list BotOnlyRow;
  GroupOffer : list GroupOfferRow;
  GroupRequest : list GroupRequestRow
}.

Definition empty_database : database :=
  {| ModuleRole := []; Modmail := []; BotOnly := [];
     GroupOffer := []; GroupRequest := [] |}.

(** ** The statements of [bot.persistence.queries]

    The module [queries] is not part of the sources at hand: each of its
    constants is a constructor.  [FIND_GROUP_EXCHANGE_CANDIDATES in_list]
    stands for [queries.FIND_GROUP_EXCHANGE_CANDIDATES.format(in_list)], the
    only statement whose text is built at call time. *)

Inductive query : Type :=
| INSERT_MODULE_ROLE
| REMOVE_MODULE_ROLE
| INSERT_MODMAIL
| GET_MODMAIL_STATUS
| CHANGE_MODMAIL_STATUS
| GET_ALL_MODMAIL_WITH_STATUS
| INSERT_GROUP_OFFER
| INSERT_GROUP_REQUEST
| UPDATE_GROUP_MESSAGE_ID
| FIND_GROUP_EXCHANGE_CANDIDATES (in_list : string)
| GET_GROUP_EXCHANGE_MESSAGE
| REMOVE_GROUP_EXCHANGE_OFFER
| REMOVE_GROUP_EXCHANGE_REQUESTS
| IS_CHANNEL_BOTONLY
| ACTIVATE_BOTONLY_FOR_CHANNEL
| DEACTIVATE_BOTONLY_FOR_CHANNEL
| GET_GROUP_EXCHANGE_FOR_USER.

(** ** The journal of a connection *)

Inductive event : Type :=
| Connect
| Execute (q : query) (params : list value) (failure : option Error)
| ExecuteScript (text : string) (failure : option Error)
| Commit
| Close
| Printed (line : string).

Definition is_Commit (e : event) : bool :=
  match e with
  | Commit => true
  | _ => false
  end.

Definition commits (t : list event) : nat := List.length (filter is_Commit t).

(** ** DatabaseManager

    Modelled from the spec: the class [DatabaseManager]
    (bot/persistence/database_manager.py) is missing from the sources at hand.
    A scope acquires a handle on the backing file for one operation and
    releases it on every exit path; writes become durable only when the
    operation commits.  [stored] is the content of the file, [pending] what
    the open connection sees. *)

Record DatabaseManager : Type := {
  stored : database;
  pending : database;
  journal : list event
}.

Definition M (A : Type) : Type :=
  DatabaseManager -> DatabaseManager * (exception + A).

Definition ret {A : Type} (a : A) : M A := fun m => (m, inr a).

Definition raise {A : Type} (e : exception) : M A := fun m => (m, inl e).

Definition bind {A B : Type} (c : M A) (k : A -> M B) : M B :=
  fun m =>
    match c m with
    | (m', inl e) => (m', inl e)
    | (m', inr a) => k a m'
    end.

Declare Scope manager_scope.
Delimit Scope manager_scope with manager.
Notation "x <- c ;; k" := (bind c (fun x => k))
  (at level 100, c at next level, right associativity) : manager_scope.
Notation "c ;; k" := (bind c (fun _ => k))
  (at level 100, right associativity) : manager_scope.
Local Open Scope manager_scope.

(** [for x in l: body(x)]. *)
Fixpoint for_each {A : Type} (l : list A) (body : A -> M unit) : M unit :=
  match l with
  | [] => ret tt
  | x :: rest => body x ;; for_each rest body
  end.

(** [try: body  except Error as error: handler(error)]: only instances of
    [sqlite3.Error] are caught. *)
Definition try_except_Error {A : Type} (body : M A) (handler : Error -> M A) : M A :=
  fun m =>
    match body m with
    | (m', inl (SqliteError e)) => handler e m'
    | other => other
    end.

Definition record (e : event) (m : DatabaseManager) : DatabaseManager :=
  {| stored := stored m; pending := pending m; journal := journal m ++ [e] |}.

Definition print (line : string) : M unit := fun m => (record (Printed line) m, inr tt).

Definition commit : M unit :=
  fun m =>
    ({| stored := pending m; pending := pending m; journal := journal m ++ [Commit] |},
     inr tt).

(** What a connector method leaves behind: the content of the file, the
    journal of the scope, and the value returned or the exception raised. *)
Record outcome (A : Type) : Type := {
  store : database;
  trace : list event;
  result : exception + A
}.
Arguments store {A} _.
Arguments trace {A} _.
Arguments result {A} _.

(** [with DatabaseManager(self._db_file) as db_manager: body]. *)
Definition with_DatabaseManager {A : Type} (body : M A) (db : database) : outcome A :=
  let '(m, r) := body {| stored := db; pending := db; journal := [Connect] |} in
  {| store := stored m; trace := journal m ++ [Close]; result := r |}.

(** Cursor access. *)
Definition fetchone (rows : list row) : option row := hd_error rows.
Definition fetchall (rows : list row) : list row := rows.

(** ** Strings *)

(** [s.split(sep)] for a one-character separator. *)
Fixpoint split (sep : ascii) (s : string) : list string :=
  match s with
  | EmptyString => [EmptyString]
  | String c rest =>
      if Ascii.eqb c sep then EmptyString :: split sep rest
      else match split sep rest with
           | piece :: pieces => String c piece :: pieces
           | [] => [String c EmptyString]
           end
  end.

(** [sep.join(pieces)]. *)
Fixpoint join (sep : string) (pieces : list string) : string :=
  match pieces with
  | [] => EmptyString
  | [p] => p
  | p :: rest => String.append p (String.append sep (join sep rest))
  end.

Fixpoint contains (c : ascii) (s : string) : bool :=
  match s with
  | EmptyString => false
  | String d rest => Ascii.eqb d c || contains c rest
  end.

Fixpoint count_char (c : ascii) (s : string) : nat :=
  match s with
  | EmptyString => O
  | String d rest => (if Ascii.eqb d c then 1 else 0)%nat + count_char c rest
  end.

(** ** ModmailStatus

    Modelled from the spec: the enumeration [bot.moderation.ModmailStatus] is
    missing from the sources at hand.  It is a closed tagged type, built
    from the stored scalar with validation and mapped back to the scalar for
    writes; the spec names the members Open, InProgress and Closed. *)

Inductive ModmailStatus : Type :=
| OPEN
| IN_PROGRESS
| CLOSED.

(** [status.value]. *)
Definition ModmailStatus_value (status : ModmailStatus) : value :=
  match status with
  | OPEN => VInt 0
  | IN_PROGRESS => VInt 1
  | CLOSED => VInt 2
  end.

(** [ModmailStatus(v)]: a scalar that names no member raises [ValueError]. *)
Definition ModmailStatus_of (v : value) : exception + ModmailStatus :=
  match v with
  | VInt 0 => inr OPEN
  | VInt 1 => inr IN_PROGRESS
  | VInt 2 => inr CLOSED
  | _ => inl (ValueError "not a valid ModmailStatus")
  end.

(** ** What callers pass in *)

(** [discord.TextChannel], of which the store reads [channel.id] only. *)
Record TextChannel : Type := { id : Z }.

(** An [Iterable[int]]: a collection can be walked again and again, an
    iterator is used up by the first walk. *)
Inductive iterable : Type :=
| Collection (items : list Z)
| Iterator (items : list Z).

(** One walk over an iterable: what it yields, and what is left of it. *)
Definition iterate (it : iterable) : list Z * iterable :=
  match it with
  | Collection items => (items, Collection items)
  | Iterator items => (items, Iterator [])
  end.

(** [discord.Message], reduced to what [on_message] reads; users are
    compared by their id. *)
Record Message : Type := {
  author : Z;
  channel : TextChannel
}.

(** What the handler asks of the chat platform. *)
Inductive action : Type :=
| Delete (message : Message).

(** ** DatabaseConnector *)

Section Connector.

(** The storage engine is outside the repository: what a statement does to
    the tables is a parameter here.  [script_engine] runs one statement of
    the init script, [query_engine] one statement of [queries] with its
    bound parameters. *)
Variable script_engine : string -> database -> Error + database.
Variable query_engine :
  query -> list value -> database -> Error + (database * list row).

(** The files [parse_sql_file] can open. *)
Variable files : string -> option string.

(** [db_manager.execute(query, params)]. *)
Definition execute (q : query) (params : list value) : M (list row) :=
  fun m =>
    match query_engine q params (pending m) with
    | inl e => (record (Execute q params (Some e)) m, inl (SqliteError e))
    | inr (db, rows) =>
        ({| stored := stored m; pending := db;
            journal := journal m ++ [Execute q params None] |}, inr rows)
    end.

(** [db_manager.execute(query)] on a statement of the init script. *)
Definition execute_script (text : string) : M unit :=
  fun m =>
    match script_engine text (pending m) with
    | inl e => (record (ExecuteScript text (Some e)) m, inl (SqliteError e))
    | inr db =>
        ({| stored := stored m; pending := db;
            journal := journal m ++ [ExecuteScript text None] |}, inr tt)
    end.

Definition parse_sql_file (filename : string) : M (list string) :=
  match files filename with
  | None => raise (FileNotFoundError filename)
  | Some sql_file => ret (split ";" sql_file)
  end.

Definition __init__ (db_file : option string) (init_script : option string)
    (db : database) : outcome unit :=
  match db_file with
  | None =>
      {| store := db; trace := [];
         result := inl (SqliteError
                          (BaseError "Database filepath and/or filename hasn't been set.")) |}
  | Some _ =>
      with_DatabaseManager
        (match init_script with
         | Some script =>
             queries_ <- parse_sql_file script ;;
             for_each queries_ (fun query =>
               try_except_Error (execute_script query)
                 (fun error =>
                    print (String.append "Command could not be executed, skipping it: "
                                         (str_of_Error error))))
         | None => ret tt
         end) db
  end.

Definition add_module_role (role_id : Z) : database -> outcome unit :=
  with_DatabaseManager
    (execute INSERT_MODULE_ROLE [VInt role_id] ;;
     commit).

Definition remove_module_role (role_id : Z) : database -> outcome unit :=
  with_DatabaseManager
    (execute REMOVE_MODULE_ROLE [VInt role_id] ;;
     commit).

Definition add_modmail (msg_id : Z) (author : string) (timestamp : string)
    : database -> outcome unit :=
  with_DatabaseManager
    (execute INSERT_MODMAIL [VInt msg_id; VStr author; VStr timestamp] ;;
     commit).

Definition get_modmail_status (msg_id : Z) : database -> outcome (option ModmailStatus) :=
  with_DatabaseManager
    (result <- execute GET_MODMAIL_STATUS [VInt msg_id] ;;
     match fetchone result with
     | Some row =>
         match row with
         | v :: _ =>
             match ModmailStatus_of v with
             | inr status => ret (Some status)
             | inl e => raise e
             end
         | [] => raise IndexError
         end
     | None => ret None
     end).

Definition change_modmail_status (msg_id : Z) (status : ModmailStatus)
    : database -> outcome unit :=
  with_DatabaseManager
    (execute CHANGE_MODMAIL_STATUS [ModmailStatus_value status; VInt msg_id] ;;
     commit).

Definition get_all_modmail_with_status (status : ModmailStatus)
    : database -> outcome (option (list row)) :=
  with_DatabaseManager
    (result <- execute GET_ALL_MODMAIL_WITH_STATUS [ModmailStatus_value status] ;;
     match fetchall result with
     | [] => ret None
     | rows => ret (Some rows)
     end).

Definition add_group_offer_and_requests (user_id course : string) (offered_group : Z)
    (requested_groups : iterable) : database -> outcome unit :=
  with_DatabaseManager
    (execute INSERT_GROUP_OFFER [VStr user_id; VStr course; VInt offered_group] ;;
     for_each (fst (iterate requested_groups)) (fun group_nr =>
       execute INSERT_GROUP_REQUEST [VStr user_id; VStr course; VInt group_nr] ;;
       ret tt) ;;
     commit).

Definition update_group_exchange_message_id (user_id course message_id : string)
    : database -> outcome unit :=
  with_DatabaseManager
    (execute UPDATE_GROUP_MESSAGE_ID [VStr message_id; VStr user_id; VStr course] ;;
     commit).

Definition get_candidates_for_group_exchange (author_id course : string)
    (offered_group : Z) (requested_groups : iterable)
    : database -> outcome (option (list row)) :=
  with_DatabaseManager
    (let '(listed, requested_groups) := iterate requested_groups in
     let parameter_list :=
       [VStr author_id; VStr course; VInt offered_group] ++ map VInt listed in
     let '(walked, _) := iterate requested_groups in
     result <- execute
                 (FIND_GROUP_EXCHANGE_CANDIDATES (join ", " (map (fun _ => "?") walked)))
                 parameter_list ;;
     match fetchall result with
     | [] => ret None
     | rows => ret (Some rows)
     end).

Definition get_group_exchange_message (user_id course : string)
    : database -> outcome (option value) :=
  with_DatabaseManager
    (result <- execute GET_GROUP_EXCHANGE_MESSAGE [VStr user_id; VStr course] ;;
     match fetchone result with
     | Some (v :: _) => ret (Some v)
     | _ => ret None
     end).

Definition remove_group_exchange_offer (user_id course : string)
    : database -> outcome unit :=
  with_DatabaseManager
    (execute REMOVE_GROUP_EXCHANGE_OFFER [VStr user_id; VStr course] ;;
     execute REMOVE_GROUP_EXCHANGE_REQUESTS [VStr user_id; VStr course] ;;
     commit).

Definition is_botonly (channel : TextChannel) : database -> outcome value :=
  with_DatabaseManager
    (result <- execute IS_CHANNEL_BOTONLY [VInt (id channel)] ;;
     match fetchone result with
     | Some (v :: _) => ret v
     | _ => ret (VInt 0)
     end).

Definition activate_botonly (channel : TextChannel) : database -> outcome unit :=
  with_DatabaseManager
    (execute ACTIVATE_BOTONLY_FOR_CHANNEL [VInt (id channel)] ;;
     commit).

Definition deactivate_botonly (channel : TextChannel) : database -> outcome unit :=
  with_DatabaseManager
    (execute DEACTIVATE_BOTONLY_FOR_CHANNEL [VInt (id channel)] ;;
     commit).

Definition get_group_exchange_for_user (user_id : Z)
    : database -> outcome (option (list row)) :=
  with_DatabaseManager
    (result <- execute GET_GROUP_EXCHANGE_FOR_USER [VInt user_id] ;;
     match fetchall result with
     | [] => ret None
     | rows => ret (Some rows)
     end).

(** ** AdminCog.on_message *)

Definition on_message (bot_user : Z) (ctx : Message) (db : database)
    : list action * outcome unit :=
  if Z.eqb (author ctx) bot_user then
    ([], {| store := db; trace := []; result := inr tt |})
  else
    let looked_up := is_botonly (channel ctx) db in
    match result looked_up with
    | inl e =>
        ([], {| store := store looked_up; trace := trace looked_up; result := inl e |})
    | inr flag =>
        (if truthy flag then [Delete ctx] else [],
         {| store := store looked_up; trace := trace looked_up; result := inr tt |})
    end.

End Connector.

(** ** The storage engine on the statements of [queries]

    Modelled from the spec: the SQL text of [bot.persistence.queries] and the
    schema script are missing from the sources at hand.  Each statement does
    what the spec says of the operation that sends it, on the keys the data
    model gives: a role id, a modmail message id and a bot-only channel id
    are unique, there is one offer per (user, course) and one request per
    (user, course, group).  An insert that repeats a key fails; a delete of
    nothing succeeds.  The parameters are bound by position, and a statement
    given the wrong number of them fails. *)

Definition placeholders (n : nat) : string := join ", " (repeat "?" n).

Definition with_ModuleRole (t : list value) (db : database) : database :=
  {| ModuleRole := t; Modmail := Modmail db; BotOnly := BotOnly db;
     GroupOffer := GroupOffer db; GroupRequest := GroupRequest db |}.

Definition with_Modmail (t : list ModmailRow) (db : database) : database :=
  {| ModuleRole := ModuleRole db; Modmail := t; BotOnly := BotOnly db;
     GroupOffer := GroupOffer db; GroupRequest := GroupRequest db |}.

Definition with_BotOnly (t : list BotOnlyRow) (db : database) : database :=
  {| ModuleRole := ModuleRole db; Modmail := Modmail db; BotOnly := t;
     GroupOffer := GroupOffer db; GroupRequest := GroupRequest db |}.

Definition with_GroupOffer (t : list GroupOfferRow) (db : database) : database :=
  {| ModuleRole := ModuleRole db; Modmail := Modmail db; BotOnly := BotOnly db;
     GroupOffer := t; GroupRequest := GroupRequest db |}.

Definition with_GroupRequest (t : list GroupRequestRow) (db : database) : database :=
  {| ModuleRole := ModuleRole db; Modmail := Modmail db; BotOnly := BotOnly db;
     GroupOffer := GroupOffer db; GroupRequest := t |}.

Definition has_modmail (msg_id : value) (r : ModmailRow) : bool :=
  value_eqb (MsgId r) msg_id.

Definition on_channel (channel_id : value) (r : BotOnlyRow) : bool :=
  value_eqb (ChannelId r) channel_id.

Definition offer_of (user_id course : value) (o : GroupOfferRow) : bool :=
  value_eqb (offer_UserId o) user_id && value_eqb (offer_Course o) course.

Definition request_of (user_id course : value) (r : GroupRequestRow) : bool :=
  value_eqb (request_UserId r) user_id && value_eqb (request_Course r) course.

Definition request_for (user_id course group_nr : value) (r : GroupRequestRow) : bool :=
  request_of user_id course r && value_eqb (request_GroupNr r) group_nr.

(** The match predicate of section 4.4: an offer of another user for the
    same course, whose group is one of the requested ones, and whose owner
    has a request for the group on offer. *)
Definition is_candidate (db : database) (author_id course offered_group : value)
    (requested_groups : list value) (o : GroupOfferRow) : bool :=
  negb (value_eqb (offer_UserId o) author_id)
  && value_eqb (offer_Course o) course
  && existsb (value_eqb (offer_GroupNr o)) requested_groups
  && existsb (request_for (offer_UserId o) course offered_group) (GroupRequest db).

Definition set_botonly (channel_id state : value) (db : database) : database :=
  with_BotOnly
    (filter (fun r => negb (on_channel channel_id r)) (BotOnly db)
       ++ [{| ChannelId := channel_id; State := state |}]) db.

Definition bindings_error : Error :=
  ProgrammingError "Incorrect number of bindings supplied".

Definition unique_error : Error :=
  IntegrityError "UNIQUE constraint failed".

Definition sqlite (q : query) (params : list value) (db : database)
    : Error + (database * list row) :=
  match q with
  | INSERT_MODULE_ROLE =>
      match params with
      | [role_id] =>
          if existsb (value_eqb role_id) (ModuleRole db) then inl unique_error
          else inr (with_ModuleRole (ModuleRole db ++ [role_id]) db, [])
      | _ => inl bindings_error
      end
  | REMOVE_MODULE_ROLE =>
      match params with
      | [role_id] =>
          inr (with_ModuleRole
                 (filter (fun r => negb (value_eqb role_id r)) (ModuleRole db)) db, [])
      | _ => inl bindings_error
      end
  | INSERT_MODMAIL =>
      match params with
      | [msg_id; author; timestamp] =>
          if existsb (has_modmail msg_id) (Modmail db) then inl unique_error
          else inr (with_Modmail
                      (Modmail db ++ [{| MsgId := msg_id; Author := author;
                                         Timestamp := timestamp;
                                         Status := ModmailStatus_value OPEN |}]) db, [])
      | _ => inl bindings_error
      end
  | GET_MODMAIL_STATUS =>
      match params with
      | [msg_id] =>
          inr (db, map (fun r => [Status r]) (filter (has_modmail msg_id) (Modmail db)))
      | _ => inl bindings_error
      end
  | CHANGE_MODMAIL_STATUS =>
      match params with
      | [status; msg_id] =>
          inr (with_Modmail
                 (map (fun r => if has_modmail msg_id r
                                then {| MsgId := MsgId r; Author := Author r;
                                        Timestamp := Timestamp r; Status := status |}
                                else r) (Modmail db)) db, [])
      | _ => inl bindings_error
      end
  | GET_ALL_MODMAIL_WITH_STATUS =>
      match params with
      | [status] =>
          inr (db, map (fun r => [MsgId r; Author r; Timestamp r])
                       (filter (fun r => value_eqb (Status r) status) (Modmail db)))
      | _ => inl bindings_error
      end
  | INSERT_GROUP_OFFER =>
      match params with
      | [user_id; course; group_nr] =>
          if existsb (offer_of user_id course) (GroupOffer db) then inl unique_error
          else inr (with_GroupOffer
                      (GroupOffer db ++ [{| offer_UserId := user_id; offer_Course := course;
                                            offer_GroupNr := group_nr;
                                            offer_MessageId := VStr "undefined" |}]) db, [])
      | _ => inl bindings_error
      end
  | INSERT_GROUP_REQUEST =>
      match params with
      | [user_id; course; group_nr] =>
          if existsb (request_for user_id course group_nr) (GroupRequest db)
          then inl unique_error
          else inr (with_GroupRequest
                      (GroupRequest db ++ [{| request_UserId := user_id;
                                              request_Course := course;
                                              request_GroupNr := group_nr |}]) db, [])
      | _ => inl bindings_error
      end
  | UPDATE_GROUP_MESSAGE_ID =>
      match params with
      | [message_id; user_id; course] =>
          inr (with_GroupOffer
                 (map (fun o => if offer_of user_id course o
                                then {| offer_UserId := offer_UserId o;
                                        offer_Course := offer_Course o;
                                        offer_GroupNr := offer_GroupNr o;
                                        offer_MessageId := message_id |}
                                else o) (GroupOffer db)) db, [])
      | _ => inl bindings_error
      end
  | FIND_GROUP_EXCHANGE_CANDIDATES in_list =>
      if negb (String.eqb in_list (placeholders (count_char "?" in_list)))
      then inl (OperationalError "syntax error")
      else
        match params with
        | author_id :: course :: offered_group :: requested_groups =>
            if Nat.eqb (List.length requested_groups) (count_char "?" in_list)
            then inr (db, map (fun o => [offer_UserId o; offer_MessageId o])
                              (filter (is_candidate db author_id course offered_group
                                         requested_groups) (GroupOffer db)))
            else inl bindings_error
        | _ => inl bindings_error
        end
  | GET_GROUP_EXCHANGE_MESSAGE =>
      match params with
      | [user_id; course] =>
          inr (db, map (fun o => [offer_MessageId o])
                       (filter (offer_of user_id course) (GroupOffer db)))
      | _ => inl bindings_error
      end
  | REMOVE_GROUP_EXCHANGE_OFFER =>
      match params with
      | [user_id; course] =>
          inr (with_GroupOffer
                 (filter (fun o => negb (offer_of user_id course o)) (GroupOffer db)) db, [])
      | _ => inl bindings_error
      end
  | REMOVE_GROUP_EXCHANGE_REQUESTS =>
      match params with
      | [user_id; course] =>
          inr (with_GroupRequest
                 (filter (fun r => negb (request_of user_id course r)) (GroupRequest db)) db,
               [])
      | _ => inl bindings_error
      end
  | IS_CHANNEL_BOTONLY =>
      match params with
      | [channel_id] =>
          inr (db, map (fun r => [State r]) (filter (on_channel channel_id) (BotOnly db)))
      | _ => inl bindings_error
      end
  | ACTIVATE_BOTONLY_FOR_CHANNEL =>
      match params with
      | [channel_id] => inr (set_botonly channel_id (VInt 1) db, [])
      | _ => inl bindings_error
      end
  | DEACTIVATE_BOTONLY_FOR_CHANNEL =>
      match params with
      | [channel_id] => inr (set_botonly channel_id (VInt 0) db, [])
      | _ => inl bindings_error
      end
  | GET_GROUP_EXCHANGE_FOR_USER =>
      match params with
      | [user_id] =>
          inr (db, map (fun o => [offer_Course o; offer_GroupNr o; offer_MessageId o])
                       (filter (fun o => value_eqb (offer_UserId o) user_id) (GroupOffer db)))
      | _ => inl bindings_error
      end
  end.

(** ** The scenario of section 8

    A offers group 1 of course X and wants 2 or 3; B offers 2 and wants 1;
    C offers 2 and wants 5. *)

Definition section8 : database :=
  {| ModuleRole := []; Modmail := []; BotOnly := [];
     GroupOffer :=
       [ {| offer_UserId := VStr "A"; offer_Course := VStr "X";
            offer_GroupNr := VInt 1; offer_MessageId := VStr "100" |};
         {| offer_UserId := VStr "B"; offer_Course := VStr "X";
            offer_GroupNr := VInt 2; offer_MessageId := VStr "200" |};
         {| offer_UserId := VStr "C"; offer_Course := VStr "X";
            offer_GroupNr := VInt 2; offer_MessageId := VStr "300" |} ];
     GroupRequest :=
       [ {| request_UserId := VStr "A"; request_Course := VStr "X"; request_GroupNr := VInt 2 |};
         {| request_UserId := VStr "A"; request_Course := VStr "X"; request_GroupNr := VInt 3 |};
         {| request_UserId := VStr "B"; request_Course := VStr "X"; request_GroupNr := VInt 1 |};
         {| request_UserId := VStr "C"; request_Course := VStr "X"; request_GroupNr := VInt 5 |} ] |}.

(** ** Vocabulary of the statements below *)

(** What the loop of [__init__] leaves in the journal for one statement of
    the script: the attempt, and a printed line when it failed. *)
Definition attempt (tried : string * option Error) : list event :=
  ExecuteScript (fst tried) (snd tried)
  :: match snd tried with
     | Some error =>
         [Printed (String.append "Command could not be executed, skipping it: "
                                 (str_of_Error error))]
     | None => []
     end.

(** [None] when there is no row, the rows otherwise: [if rows: return rows]
    followed by [return None]. *)
Definition rows_or_None (rows : list row) : option (list row) :=
  match rows with
  | [] => None
  | _ => Some rows
  end.

Fixpoint distinct (l : list Z) : bool :=
  match l with
  | [] => true
  | k :: rest => negb (existsb (Z.eqb k) rest) && distinct rest
  end.

Definition new_offer (user_id course : string) (offered_group : Z) : GroupOfferRow :=
  {| offer_UserId := VStr user_id; offer_Course := VStr course;
     offer_GroupNr := VInt offered_group; offer_MessageId := VStr "undefined" |}.

Definition new_request (user_id course : string) (group_nr : Z) : GroupRequestRow :=
  {| request_UserId := VStr user_id; request_Course := VStr course;
     request_GroupNr := VInt group_nr |}.

(** No key of the operation is taken yet: no offer of the user for the
    course, no group requested twice, none of the requests in the table. *)
Definition keys_are_free (user_id course : string) (requested_groups : list Z)
    (db : database) : bool :=
  negb (existsb (offer_of (VStr user_id) (VStr course)) (GroupOffer db))
  && distinct requested_groups
  && forallb (fun k => negb (existsb (request_for (VStr user_id) (VStr course) (VInt k))
                                     (GroupRequest db))) requested_groups.

(** ** A bootstrap to run

    A store whose tables exist already: a [CREATE] statement fails, any
    other statement of the script goes through. *)

Definition migrated_engine (text : string) (db : database) : Error + database :=
  if String.prefix "CREATE" text
  then inl (OperationalError "table already exists")
  else inr db.

Definition init_db_sql : string := "CREATE TABLE ModuleRole;PRAGMA foreign_keys;".

Definition one_script (filename : string) : option string :=
  if String.eqb filename "init_db.sql" then Some init_db_sql else None.

(** A bot-only channel, and a message in it. *)
Definition quiet_room : TextChannel := {| id := 42 |}.

Definition quiet_store : database :=
  store (activate_botonly sqlite quiet_room empty_database).

(** ** More of Python's [str]

    Strings are taken as sequences of ASCII characters: [capitalize] and the
    case tests below leave every other byte as it is. *)

(** [s.startswith(prefix)]. *)
Fixpoint startswith (s prefix : string) {struct prefix} : bool :=
  match prefix with
  | EmptyString => true
  | String p prefix' =>
      match s with
      | EmptyString => false
      | String c s' => Ascii.eqb c p && startswith s' prefix'
      end
  end.

(** The lowest index at which [sub] occurs in [s], if it occurs. *)
Fixpoint first_index (sub s : string) : option nat :=
  if startswith s sub then Some O
  else match s with
       | EmptyString => None
       | String _ rest =>
           match first_index sub rest with
           | Some i => Some (S i)
           | None => None
           end
       end.

(** [s.find(sub)]: the lowest index, or -1. *)
Definition find (s sub : string) : Z :=
  match first_index sub s with
  | Some i => Z.of_nat i
  | None => (-1)%Z
  end.

(** [sub in s]. *)
Definition str_in (sub s : string) : bool :=
  match first_index sub s with
  | Some _ => true
  | None => false
  end.

Fixpoint take (n : nat) (s : string) : string :=
  match n, s with
  | S n', String c rest => String c (take n' rest)
  | _, _ => EmptyString
  end.

Fixpoint drop (n : nat) (s : string) : string :=
  match n, s with
  | S n', String _ rest => drop n' rest
  | _, _ => s
  end.

(** Where a slice bound lands: a negative bound counts from the end, and
    every bound is clamped to the string. *)
Definition slice_bound (k : Z) (s : string) : nat :=
  if (k <? 0)%Z then Z.to_nat (Z.of_nat (String.length s) + k) else Z.to_nat k.

(** [s[:k]]. *)
Definition slice_to (k : Z) (s : string) : string := take (slice_bound k s) s.

(** [s[k:]]. *)
Definition slice_from (k : Z) (s : string) : string := drop (slice_bound k s) s.








(** ** The helpers of bot/admin/admin.py *)

Definition is_pastebin_link (json_string : string) : bool :=
  str_in "pastebin.com" json_string
  && negb (existsb (fun x => str_in x json_string) ["{"; "}"]).

(** What a call of [requests.get(url).text] comes to: the URL asked for and
    the text that came back. *)
Record fetched : Type := {
  requested : string;
  text : string
}.


(** [discord.Embed], reduced to the fields the commands set. *)
Record Embed : Type := {
  title : string;
  description : string;
  color : Z
}.

(** The title and the description the [embed] command hands to
    [discord.Embed]; unpacking [text.split('|')] into two names raises
    [ValueError] when there are not exactly two pieces. *)
Definition embed (color : Z) (text : string) : exception + Embed :=
  if str_in "|" text then
    match split "|" text with
    | [title; description] =>
        inr {| title := title; description := description; color := color |}
    | _ :: _ :: _ :: _ => inl (ValueError "too many values to unpack (expected 2)")
    | _ => inl (ValueError "not enough values to unpack")
    end
  else inr {| title := ""; description := text; color := color |}.

Section Admin.

(** The network and the constants of [bot.constants] are outside the
    sources at hand. *)
Variable requests_get : string -> string.
Variable EMBED_COLOR_BOTONLY : Z.
Variable query_engine :
  query -> list value -> database -> Error + (database * list row).

Definition parse_pastebin_link (url : string) : fetched :=
  let url :=
    if negb (str_in "raw" url) then
      let split_index := find url ".com/" in
      String.append (slice_to (split_index + 5) url)
        (String.append "raw/" (slice_from (split_index + 5) url))
    else url in
  {| requested := url; text := requests_get url |}.

(** The first lines of [embed_by_json]: the requests made, and the string
    handed to [json.loads]. *)
Definition embed_by_json (json_string : string) : list string * string :=
  if is_pastebin_link json_string then
    let got := parse_pastebin_link json_string in
    ([requested got], text got)
  else ([], json_string).

Definition _build_botonly_embed (is_enabled_string : string) : Embed :=
  {| title := String.append "Der Bot-only Mode wurde für diesen Channel " is_enabled_string;
     description :=
       String.append
         "Der Bot-only Mode sorgt dafür, dass nur noch SAM Nachrichten in einem Channel posten darf. Jede "
         "Nachricht von anderen Usern wird sofort gelöscht.";
     color := EMBED_COLOR_BOTONLY |}.

(** The [botonly] command: the store it leaves, and the embed it sends to
    the target channel unless a store operation raised.  The lines written
    to the log are left out. *)
Definition botonly (ctx_channel : TextChannel) (channel : option TextChannel)
    (db : database) : database * (exception + TextChannel * Embed) :=
  let target_channel :=
    match channel with
    | Some given => given
    | None => ctx_channel
    end in
  let looked_up := is_botonly query_engine target_channel db in
  match result looked_up with
  | inl e => (store looked_up, inl e)
  | inr is_channel_botonly =>
      let switched :=
        if truthy is_channel_botonly
        then deactivate_botonly query_engine target_channel (store looked_up)
        else activate_botonly query_engine target_channel (store looked_up) in
      match result switched with
      | inl e => (store switched, inl e)
      | inr _ =>
          let is_enabled_string :=
            if negb (truthy is_channel_botonly) then "aktiviert" else "deaktiviert" in
          (store switched, inr (target_channel, _build_botonly_embed is_enabled_string))
      end
  end.

End Admin.

(** What a method that sends one statement and commits leaves behind. *)
Definition one_statement_write
    (query_engine : query -> list value -> database -> Error + (database * list row))
    (q : query) (params : list value) (db : database) : outcome unit :=
  match query_engine q params db with
  | inl e =>
      {| store := db; trace := [Connect; Execute q params (Some e); Close];
         result := inl (SqliteError e) |}
  | inr (written, _) =>
      {| store := written; trace := [Connect; Execute q params None; Commit; Close];
         result := inr tt |}
  end.

(** What CHANGE_MODMAIL_STATUS does to one row. *)
Definition restamp (msg_id status : value) (r : ModmailRow) : ModmailRow :=
  if has_modmail msg_id r
  then {| MsgId := MsgId r; Author := Author r; Timestamp := Timestamp r; Status := status |}
  else r.


(** What UPDATE_GROUP_MESSAGE_ID does to one row. *)
Definition readdress (user_id course message_id : value) (o : GroupOfferRow)
    : GroupOfferRow :=
  if offer_of user_id course o
  then {| offer_UserId := offer_UserId o; offer_Course := offer_Course o;
          offer_GroupNr := offer_GroupNr o; offer_MessageId := message_id |}
  else o.

(** The rows of a lookup, the absent sentinel and an exception read as no
    row. *)
Definition rows_or_nothing (r : exception + option (list row)) : list row :=
  match r with
  | inr (Some rows) => rows
  | _ => []
  end.

(** * Properties *)

(** ** Values *)

Lemma value_eqb_eq (a b : value) : value_eqb a b = true <-> a = b.
Proof.
  destruct a, b; simpl; split; intro H; try discriminate; try reflexivity.
  - apply Bool.eqb_prop in H. now subst.
  - injection H as ->. apply Bool.eqb_reflx.
  - apply Z.eqb_eq in H. now subst.
  - injection H as ->. apply Z.eqb_refl.
  - apply String.eqb_eq in H. now subst.
  - injection H as ->. apply String.eqb_refl.
Qed.

Lemma value_eqb_refl (a : value) : value_eqb a a = true.
Proof. now apply value_eqb_eq. Qed.

Lemma value_eqb_neq (a b : value) : value_eqb a b = false <-> a <> b.
Proof.
  split.
  - intros H E. apply value_eqb_eq in E. congruence.
  - intro H. destruct (value_eqb a b) eqn:E; [|reflexivity].
    apply value_eqb_eq in E. contradiction.
Qed.

Lemma filter_nothing {A : Type} (f : A -> bool) (l : list A) :
  (forall x, In x l -> f x = false) -> filter f l = [].
Proof.
  induction l as [|x l IH]; intro H; simpl; [reflexivity|].
  rewrite (H x (or_introl eq_refl)). apply IH. intros y Hy. apply H. now right.
Qed.

(** ** Splitting and joining *)

Lemma split_not_nil (sep : ascii) (s : string) : split sep s <> [].
Proof.
  destruct s as [|c s]; simpl; [discriminate|].
  destruct (Ascii.eqb c sep); [discriminate|].
  destruct (split sep s); discriminate.
Qed.

Lemma join_cons (sep p : string) (rest : list string) :
  rest <> [] -> join sep (p :: rest) = String.append p (String.append sep (join sep rest)).
Proof. destruct rest; [contradiction | reflexivity]. Qed.

Lemma join_push (sep : string) (c : ascii) (p : string) (rest : list string) :
  join sep (String c p :: rest) = String c (join sep (p :: rest)).
Proof. destruct rest; reflexivity. Qed.

(** Joining the pieces with the separator gives the text back. *)
Lemma join_split (sep : ascii) (s : string) :
  join (String sep EmptyString) (split sep s) = s.
Proof.
  induction s as [|c s IH]; simpl; [reflexivity|].
  destruct (Ascii.eqb c sep) eqn:E.
  - apply Ascii.eqb_eq in E. subst c.
    rewrite join_cons by apply split_not_nil.
    simpl. now rewrite IH.
  - destruct (split sep s) as [|p rest] eqn:S.
    + now apply split_not_nil in S.
    + rewrite join_push. now rewrite IH.
Qed.

(** No piece holds the separator. *)
Lemma split_pieces (sep : ascii) (s : string) :
  Forall (fun piece => contains sep piece = false) (split sep s).
Proof.
  induction s as [|c s IH]; simpl.
  - constructor; [reflexivity | constructor].
  - destruct (Ascii.eqb c sep) eqn:E.
    + constructor; [reflexivity | exact IH].
    + destruct (split sep s) as [|p rest] eqn:S.
      * constructor; [simpl; now rewrite E | constructor].
      * inversion IH as [|? ? Hp Hrest]; subst.
        constructor; [simpl; now rewrite E, Hp | exact Hrest].
Qed.

Lemma count_char_append (c : ascii) (s t : string) :
  count_char c (String.append s t) = (count_char c s + count_char c t)%nat.
Proof.
  induction s as [|d s IH]; simpl; [reflexivity|].
  rewrite IH. lia.
Qed.

(** One ['?'] per walked element. *)
Lemma marks_repeat {A : Type} (l : list A) :
  map (fun _ => "?") l = repeat "?" (List.length l).
Proof. induction l as [|x l IH]; simpl; [reflexivity | now rewrite IH]. Qed.

Lemma placeholders_S (n : nat) :
  placeholders (S (S n)) = String.append "?" (String.append ", " (placeholders (S n))).
Proof. reflexivity. Qed.

Lemma count_placeholders (n : nat) : count_char "?" (placeholders n) = n.
Proof.
  induction n as [|n IH]; [reflexivity|].
  destruct n as [|n]; [reflexivity|].
  rewrite placeholders_S, !count_char_append, IH. reflexivity.
Qed.

Lemma contains_append (c : ascii) (s t : string) :
  contains c (String.append s t) = contains c s || contains c t.
Proof.
  induction s as [|d s IH]; simpl; [reflexivity|].
  rewrite IH. now rewrite orb_assoc.
Qed.

(** The placeholder list is made of question marks, commas and blanks. *)
Lemma placeholders_alphabet (n : nat) (c : ascii) :
  contains c (placeholders n) = true -> c = "?"%char \/ c = ","%char \/ c = " "%char.
Proof.
  induction n as [|n IH]; [discriminate|].
  destruct n as [|n].
  - change (placeholders 1) with "?". cbn [contains]. rewrite orb_false_r.
    intro H. apply Ascii.eqb_eq in H. now left.
  - rewrite placeholders_S, !contains_append.
    change (contains c "?") with (Ascii.eqb "?" c || false).
    change (contains c ", ") with (Ascii.eqb "," c || (Ascii.eqb " " c || false)).
    rewrite !orb_false_r. intro H.
    apply orb_true_iff in H as [H | H]; [apply Ascii.eqb_eq in H; now left|].
    apply orb_true_iff in H as [H | H]; [|now apply IH].
    apply orb_true_iff in H as [H | H]; apply Ascii.eqb_eq in H; auto.
Qed.

(** ** Scopes and sequencing *)

Lemma scope_run {A : Type} (body : M A) (db : database) (m : DatabaseManager)
    (r : exception + A) :
  body {| stored := db; pending := db; journal := [Connect] |} = (m, r) ->
  with_DatabaseManager body db
  = {| store := stored m; trace := journal m ++ [Close]; result := r |}.
Proof. unfold with_DatabaseManager. now intros ->. Qed.

Lemma bind_run {A B : Type} (c : M A) (k : A -> M B) (m m' : DatabaseManager)
    (r : exception + B) :
  bind c k m = (m', r) ->
  (exists e, c m = (m', inl e) /\ r = inl e)
  \/ (exists a m1, c m = (m1, inr a) /\ k a m1 = (m', r)).
Proof.
  unfold bind. destruct (c m) as [m1 [e | a]]; intro H.
  - left. exists e. injection H as <- <-. now split.
  - right. now exists a, m1.
Qed.

Lemma commits_app (a b : list event) :
  commits (a ++ b) = (commits a + commits b)%nat.
Proof. unfold commits. now rewrite filter_app, length_app. Qed.

(** ** Whatever the storage engine does *)

Section AnyEngine.

Variable script_engine : string -> database -> Error + database.
Variable query_engine :
  query -> list value -> database -> Error + (database * list row).
Variable files : string -> option string.

Ltac open_scope_of f :=
  unfold f, with_DatabaseManager, bind, execute, commit, ret, raise,
         fetchone, fetchall, commits, record; simpl.

Lemma get_modmail_status_reads (msg_id : Z) (db : database) :
  store (get_modmail_status query_engine msg_id db) = db
  /\ commits (trace (get_modmail_status query_engine msg_id db)) = O.
Proof.
  open_scope_of get_modmail_status.
  destruct (query_engine _ _ _) as [e | [db' rows]]; simpl; [now split|].
  destruct rows as [|[|v r] rows]; simpl; try now split.
  destruct (ModmailStatus_of v); now split.
Qed.

Lemma get_all_modmail_with_status_reads (status : ModmailStatus) (db : database) :
  store (get_all_modmail_with_status query_engine status db) = db
  /\ commits (trace (get_all_modmail_with_status query_engine status db)) = O.
Proof.
  open_scope_of get_all_modmail_with_status.
  destruct (query_engine _ _ _) as [e | [db' rows]]; simpl; [now split|].
  destruct rows; now split.
Qed.

Lemma get_candidates_for_group_exchange_reads (author_id course : string)
    (offered_group : Z) (requested_groups : iterable) (db : database) :
  store (get_candidates_for_group_exchange query_engine author_id course offered_group
           requested_groups db) = db
  /\ commits (trace (get_candidates_for_group_exchange query_engine author_id course
                       offered_group requested_groups db)) = O.
Proof.
  open_scope_of get_candidates_for_group_exchange.
  destruct requested_groups as [items | items]; simpl;
    (destruct (query_engine _ _ _) as [e | [db' rows]]; simpl; [now split|];
     destruct rows; now split).
Qed.

Lemma get_group_exchange_message_reads (user_id course : string) (db : database) :
  store (get_group_exchange_message query_engine user_id course db) = db
  /\ commits (trace (get_group_exchange_message query_engine user_id course db)) = O.
Proof.
  open_scope_of get_group_exchange_message.
  destruct (query_engine _ _ _) as [e | [db' rows]]; simpl; [now split|].
  destruct rows as [|[|v r] rows]; now split.
Qed.

Lemma get_group_exchange_for_user_reads (user_id : Z) (db : database) :
  store (get_group_exchange_for_user query_engine user_id db) = db
  /\ commits (trace (get_group_exchange_for_user query_engine user_id db)) = O.
Proof.
  open_scope_of get_group_exchange_for_user.
  destruct (query_engine _ _ _) as [e | [db' rows]]; simpl; [now split|].
  destruct rows; now split.
Qed.

Lemma is_botonly_reads (channel : TextChannel) (db : database) :
  store (is_botonly query_engine channel db) = db
  /\ commits (trace (is_botonly query_engine channel db)) = O.
Proof.
  open_scope_of is_botonly.
  destruct (query_engine _ _ _) as [e | [db' rows]]; simpl; [now split|].
  destruct rows as [|[|v r] rows]; now split.
Qed.

(** C9. Every read operation of the store (get_modmail_status,
    get_all_modmail_with_status, get_candidates_for_group_exchange,
    get_group_exchange_message, get_group_exchange_for_user, is_botonly)
    leaves the persisted state unchanged: its journal holds no commit, and
    the content of the file after the call is the content before it,
    whatever the engine answers and whether the call returns or raises. *)
Theorem reads_leave_the_store_unchanged
    (db : database) (msg_id : Z) (status : ModmailStatus)
    (author_id course user : string) (offered_group user_id : Z)
    (requested_groups : iterable) (channel : TextChannel) :
  (store (get_modmail_status query_engine msg_id db) = db
   /\ commits (trace (get_modmail_status query_engine msg_id db)) = O)
  /\ (store (get_all_modmail_with_status query_engine status db) = db
      /\ commits (trace (get_all_modmail_with_status query_engine status db)) = O)
  /\ (store (get_candidates_for_group_exchange query_engine author_id course
               offered_group requested_groups db) = db
      /\ commits (trace (get_candidates_for_group_exchange query_engine author_id course
                           offered_group requested_groups db)) = O)
  /\ (store (get_group_exchange_message query_engine user course db) = db
      /\ commits (trace (get_group_exchange_message query_engine user course db)) = O)
  /\ (store (get_group_exchange_for_user query_engine user_id db) = db
      /\ commits (trace (get_group_exchange_for_user query_engine user_id db)) = O)
  /\ (store (is_botonly query_engine channel db) = db
      /\ commits (trace (is_botonly query_engine channel db)) = O).
Proof.
  repeat split;
    first [ apply get_modmail_status_reads
          | apply get_all_modmail_with_status_reads
          | apply get_candidates_for_group_exchange_reads
          | apply get_group_exchange_message_reads
          | apply get_group_exchange_for_user_reads
          | apply is_botonly_reads ].
Qed.

(** C5. For a requested_groups collection of length n (empty or not),
    get_candidates_for_group_exchange sends one statement: the template
    filled with exactly n placeholders, a text fixed by n alone, executed
    with exactly 3 + n bound parameters: author_id, course, offered_group,
    then the n requested groups in order. *)
Theorem get_candidates_binds_every_value
    (author_id course : string) (offered_group : Z) (requested_groups : list Z)
    (db : database) :
  let n := List.length requested_groups in
  let parameter_list :=
    [VStr author_id; VStr course; VInt offered_group] ++ map VInt requested_groups in
  exists failure,
    trace (get_candidates_for_group_exchange query_engine author_id course offered_group
             (Collection requested_groups) db)
    = [Connect;
       Execute (FIND_GROUP_EXCHANGE_CANDIDATES (placeholders n)) parameter_list failure;
       Close]
    /\ count_char "?" (placeholders n) = n
    /\ (forall c, contains c (placeholders n) = true ->
                  c = "?"%char \/ c = ","%char \/ c = " "%char)
    /\ List.length parameter_list = (3 + n)%nat.
Proof.
  intros n parameter_list.
  open_scope_of get_candidates_for_group_exchange.
  rewrite marks_repeat. fold (placeholders (List.length requested_groups)).
  fold n. fold parameter_list.
  destruct (query_engine _ _ _) as [e | [db' rows]]; simpl.
  - exists (Some e). split; [reflexivity|]. split; [apply count_placeholders|].
    split; [apply placeholders_alphabet|].
    unfold parameter_list. simpl. now rewrite length_map.
  - exists None. split; [destruct rows; reflexivity|].
    split; [apply count_placeholders|]. split; [apply placeholders_alphabet|].
    unfold parameter_list. simpl. now rewrite length_map.
Qed.

(** One turn of the loop of [__init__]: the statement is attempted, and a
    failure is printed and passed over. *)
Lemma init_step (q : string) (m : DatabaseManager) :
  exists (failure : option Error) (m' : DatabaseManager),
    try_except_Error (execute_script script_engine q)
      (fun error =>
         print (String.append "Command could not be executed, skipping it: "
                              (str_of_Error error))) m
    = (m', inr tt)
    /\ journal m' = journal m ++ attempt (q, failure)
    /\ stored m' = stored m.
Proof.
  unfold try_except_Error, execute_script, print, record, attempt.
  destruct (script_engine q (pending m)) as [e | db']; cbn [fst snd].
  - exists (Some e). eexists. split; [reflexivity|]. cbn [journal stored].
    now rewrite <- app_assoc.
  - exists None. eexists. split; [reflexivity|]. now cbn [journal stored].
Qed.

(** The whole loop: every statement is attempted, in order. *)
Lemma init_loop (statements : list string) (m : DatabaseManager) :
  exists (failures : list (option Error)) (m' : DatabaseManager),
    for_each statements
      (fun query =>
         try_except_Error (execute_script script_engine query)
           (fun error =>
              print (String.append "Command could not be executed, skipping it: "
                                   (str_of_Error error)))) m
    = (m', inr tt)
    /\ List.length failures = List.length statements
    /\ journal m' = journal m ++ flat_map attempt (combine statements failures)
    /\ stored m' = stored m.
Proof.
  revert m. induction statements as [|q rest IH]; intro m.
  - exists [], m. cbn. unfold ret. now rewrite app_nil_r.
  - cbn [for_each]. unfold bind at 1.
    destruct (init_step q m) as (failure & m1 & Hstep & Hjournal1 & Hstored1).
    rewrite Hstep.
    destruct (IH m1) as (failures & m' & Hrun & Hlen & Hjournal & Hstored).
    exists (failure :: failures), m'. rewrite Hrun. repeat split.
    + cbn. now rewrite Hlen.
    + rewrite Hjournal, Hjournal1. cbn [combine flat_map]. now rewrite <- app_assoc.
    + now rewrite Hstored.
Qed.

(** C6. For every init script given at construction, the initializer
    splits the text on [;] into the ordered statements (joining them with
    [;] gives the text back and no statement holds a [;]) and, inside one
    scope, attempts every one of them in that order; a failing statement is
    followed by a printed line and then by the next statement, and
    construction returns normally. *)
Theorem init_attempts_every_statement
    (db_file init_script text : string) (db : database) :
  files init_script = Some text ->
  let built := __init__ script_engine files (Some db_file) (Some init_script) db in
  let statements := split ";" text in
  join ";" statements = text
  /\ Forall (fun statement => contains ";" statement = false) statements
  /\ result built = inr tt
  /\ exists failures : list (option Error),
       List.length failures = List.length statements
       /\ trace built
          = Connect :: flat_map attempt (combine statements failures) ++ [Close].
Proof.
  intros Hfile built statements.
  split; [apply join_split|]. split; [apply split_pieces|].
  destruct (init_loop statements {| stored := db; pending := db; journal := [Connect] |})
    as (failures & m' & Hrun & Hlen & Hjournal & _).
  assert (Hbuilt : built = {| store := stored m'; trace := journal m' ++ [Close];
                              result := inr tt |}).
  { unfold built, __init__, with_DatabaseManager, parse_sql_file.
    rewrite Hfile. unfold bind, ret. fold statements. now rewrite Hrun. }
  rewrite Hbuilt. cbn [result trace]. split; [reflexivity|].
  exists failures. split; [exact Hlen|]. now rewrite Hjournal.
Qed.

(** C10. The on_message handler never deletes a message of the bot
    itself: when the author is the bot it returns at once, asking nothing of
    the platform and nothing of the store; and whenever it asks for a
    delete, the message is the incoming one, its author is not the bot, and
    the bot-only lookup of its channel in the store gave a true value. *)
Theorem on_message_spares_the_bot (bot_user : Z) (ctx : Message) (db : database) :
  (author ctx = bot_user ->
   on_message query_engine bot_user ctx db
   = ([], {| store := db; trace := []; result := inr tt |}))
  /\ (forall message,
        In (Delete message) (fst (on_message query_engine bot_user ctx db)) ->
        message = ctx
        /\ author ctx <> bot_user
        /\ exists flag,
             result (is_botonly query_engine (channel ctx) db) = inr flag
             /\ truthy flag = true).
Proof.
  unfold on_message. split.
  - intros ->. now rewrite Z.eqb_refl.
  - intros message. destruct (Z.eqb_spec (author ctx) bot_user) as [E | N].
    + intros [].
    + destruct (result (is_botonly query_engine (channel ctx) db)) as [e | flag] eqn:R;
        simpl; [intros []|].
      destruct (truthy flag) eqn:T; simpl; [|intros []].
      intros [H | []]. injection H as <-.
      split; [reflexivity|]. split; [exact N|]. now exists flag.
Qed.

(** One statement sent to the engine never touches the file. *)
Lemma execute_keeps_store (q : query) (params : list value) (m m' : DatabaseManager)
    (r : exception + list row) :
  execute query_engine q params m = (m', r) ->
  stored m' = stored m /\ commits (journal m') = commits (journal m).
Proof.
  unfold execute, record.
  destruct (query_engine q params (pending m)) as [e | [db rows]];
    intro H; injection H as <- _; cbn [stored journal];
    rewrite commits_app; cbn; split; auto with arith.
Qed.

(** Neither does the loop over the requested groups. *)
Lemma request_loop_keeps_store (user_id course : string) (groups : list Z)
    (m m' : DatabaseManager) (r : exception + unit) :
  for_each groups (fun group_nr =>
    execute query_engine INSERT_GROUP_REQUEST
      [VStr user_id; VStr course; VInt group_nr] ;;
    ret tt) m = (m', r) ->
  stored m' = stored m /\ commits (journal m') = commits (journal m).
Proof.
  revert m. induction groups as [|k rest IH]; intro m.
  - intro H. injection H as <- _. now split.
  - cbn [for_each]. intro H.
    apply bind_run in H as [(e & H & _) | ([] & m1 & H & Hrest)].
    + apply bind_run in H as [(e' & H & _) | (rows & m2 & H & Hret)].
      * now apply execute_keeps_store in H.
      * discriminate Hret.
    + apply bind_run in H as [(e' & H & Habs) | (rows & m2 & H & Hret)];
        [discriminate Habs|].
      injection Hret as <-. apply execute_keeps_store in H as [Hs Hc].
      apply IH in Hrest as [Hs' Hc']. rewrite Hs', Hc'. now split.
Qed.

(** The offer and its requests: a failure anywhere leaves the file as it
    was, with no commit; a normal return has committed once. *)
Lemma add_group_offer_and_requests_commits_last (user_id course : string)
    (offered_group : Z) (requested_groups : iterable) (db : database) :
  match result (add_group_offer_and_requests query_engine user_id course offered_group
                  requested_groups db) with
  | inl _ =>
      store (add_group_offer_and_requests query_engine user_id course offered_group
               requested_groups db) = db
      /\ commits (trace (add_group_offer_and_requests query_engine user_id course
                           offered_group requested_groups db)) = O
  | inr _ =>
      commits (trace (add_group_offer_and_requests query_engine user_id course
                        offered_group requested_groups db)) = 1%nat
  end.
Proof.
  unfold add_group_offer_and_requests.
  match goal with
  | |- context [with_DatabaseManager ?body db] =>
      destruct (body {| stored := db; pending := db; journal := [Connect] |})
        as [m r] eqn:B;
      rewrite (scope_run body db m r B)
  end.
  cbn [result store trace]. rewrite commits_app.
  apply bind_run in B as [(e & H & ->) | (rows & m1 & H & B)].
  - apply execute_keeps_store in H as [Hs Hc]. rewrite Hc. now split.
  - apply execute_keeps_store in H as [Hs Hc]. cbn [stored journal] in Hs, Hc.
    apply bind_run in B as [(e & L & ->) | ([] & m2 & L & B)];
      apply request_loop_keeps_store in L as [Hs' Hc'].
    + rewrite Hs', Hs, Hc', Hc. now split.
    + unfold commit in B. injection B as <- <-. cbn [journal].
      rewrite commits_app, Hc', Hc. reflexivity.
Qed.

(** The removal: a failure of either delete leaves the file as it was; a
    normal return has run both deletes and committed them together. *)
Lemma remove_group_exchange_offer_commits_last (user_id course : string)
    (db : database) :
  match result (remove_group_exchange_offer query_engine user_id course db) with
  | inl _ =>
      store (remove_group_exchange_offer query_engine user_id course db) = db
      /\ commits (trace (remove_group_exchange_offer query_engine user_id course db)) = O
  | inr _ =>
      exists db1 rows1 db2 rows2,
        query_engine REMOVE_GROUP_EXCHANGE_OFFER [VStr user_id; VStr course] db
        = inr (db1, rows1)
        /\ query_engine REMOVE_GROUP_EXCHANGE_REQUESTS [VStr user_id; VStr course] db1
           = inr (db2, rows2)
        /\ store (remove_group_exchange_offer query_engine user_id course db) = db2
        /\ trace (remove_group_exchange_offer query_engine user_id course db)
           = [Connect;
              Execute REMOVE_GROUP_EXCHANGE_OFFER [VStr user_id; VStr course] None;
              Execute REMOVE_GROUP_EXCHANGE_REQUESTS [VStr user_id; VStr course] None;
              Commit; Close]
  end.
Proof.
  open_scope_of remove_group_exchange_offer.
  destruct (query_engine REMOVE_GROUP_EXCHANGE_OFFER _ db) as [e | [db1 rows1]] eqn:E1;
    cbn; [now split|].
  destruct (query_engine REMOVE_GROUP_EXCHANGE_REQUESTS _ db1) as [e | [db2 rows2]] eqn:E2;
    cbn; [now split|].
  exists db1, rows1, db2, rows2. rewrite E2. now repeat split.
Qed.

End AnyEngine.

(** ** On the modelled storage engine *)

Lemma sqlite_find (author_id course offered_group : value) (requested : list value)
    (n : nat) (db : database) :
  n = List.length requested ->
  sqlite (FIND_GROUP_EXCHANGE_CANDIDATES (placeholders n))
    (author_id :: course :: offered_group :: requested) db
  = inr (db, map (fun o => [offer_UserId o; offer_MessageId o])
                 (filter (is_candidate db author_id course offered_group requested)
                    (GroupOffer db))).
Proof.
  intros ->. unfold sqlite. rewrite count_placeholders, String.eqb_refl. cbn [negb].
  now rewrite Nat.eqb_refl.
Qed.

Lemma is_candidate_spec (db : database) (author_id course offered_group : value)
    (requested : list value) (o : GroupOfferRow) :
  is_candidate db author_id course offered_group requested o = true
  <-> offer_UserId o <> author_id
      /\ offer_Course o = course
      /\ In (offer_GroupNr o) requested
      /\ exists r, In r (GroupRequest db)
                   /\ request_UserId r = offer_UserId o
                   /\ request_Course r = course
                   /\ request_GroupNr r = offered_group.
Proof.
  unfold is_candidate, request_for, request_of.
  rewrite !andb_true_iff, negb_true_iff, value_eqb_neq, value_eqb_eq, !existsb_exists.
  split.
  - intros [[[Hu Hc] (k & Hk & Ek)] (r & Hr & Er)].
    apply value_eqb_eq in Ek. subst k.
    rewrite !andb_true_iff, !value_eqb_eq in Er. destruct Er as [[Eu Ec] Eg].
    repeat split; auto. now exists r.
  - intros (Hu & Hc & Hk & r & Hr & Eu & Ec & Eg).
    repeat split; auto.
    + exists (offer_GroupNr o). split; [exact Hk | apply value_eqb_refl].
    + exists r. split; [exact Hr|].
      rewrite !andb_true_iff, !value_eqb_eq. auto.
Qed.

Lemma get_candidates_run (author_id course : string) (offered_group : Z)
    (requested_groups : list Z) (db : database) :
  get_candidates_for_group_exchange sqlite author_id course offered_group
    (Collection requested_groups) db
  = {| store := db;
       trace := [Connect;
                 Execute (FIND_GROUP_EXCHANGE_CANDIDATES
                            (placeholders (List.length requested_groups)))
                   ([VStr author_id; VStr course; VInt offered_group]
                      ++ map VInt requested_groups) None;
                 Close];
       result := inr (rows_or_None
                        (map (fun o => [offer_UserId o; offer_MessageId o])
                           (filter (is_candidate db (VStr author_id) (VStr course)
                                      (VInt offered_group) (map VInt requested_groups))
                              (GroupOffer db)))) |}.
Proof.
  unfold get_candidates_for_group_exchange, with_DatabaseManager, bind, execute.
  cbn [iterate pending app].
  rewrite marks_repeat. fold (placeholders (List.length requested_groups)).
  rewrite (sqlite_find _ _ _ _ (List.length requested_groups))
    by now rewrite length_map.
  unfold fetchall, ret.
  now destruct (map _ (filter _ _)).
Qed.

(** C1. For every author_id, course, offered_group and collection of
    requested_groups, get_candidates_for_group_exchange returns (as the rows,
    or as the absent sentinel when there is none) exactly the (user id,
    message id) pairs of the offers that belong to another user, are for the
    same course, offer one of the requested groups, and whose owner has a
    request for that course equal to the requester's offered group. *)
Theorem candidates_are_the_symmetric_matches
    (author_id course : string) (offered_group : Z) (requested_groups : list Z)
    (db : database) :
  exists rows,
    result (get_candidates_for_group_exchange sqlite author_id course offered_group
              (Collection requested_groups) db)
    = inr (rows_or_None rows)
    /\ forall pair,
         In pair rows
         <-> exists o,
               pair = [offer_UserId o; offer_MessageId o]
               /\ In o (GroupOffer db)
               /\ offer_UserId o <> VStr author_id
               /\ offer_Course o = VStr course
               /\ (exists k, In k requested_groups /\ offer_GroupNr o = VInt k)
               /\ exists r, In r (GroupRequest db)
                            /\ request_UserId r = offer_UserId o
                            /\ request_Course r = VStr course
                            /\ request_GroupNr r = VInt offered_group.
Proof.
  rewrite get_candidates_run. cbn [result].
  eexists. split; [reflexivity|].
  intro pair. rewrite in_map_iff. split.
  - intros (o & <- & Ho). apply filter_In in Ho as [Ho Hc].
    apply is_candidate_spec in Hc as (Hu & Hcourse & Hk & Hr).
    exists o. repeat split; auto.
    apply in_map_iff in Hk as (k & Ek & Hk). now exists k.
  - intros (o & -> & Ho & Hu & Hcourse & (k & Hk & Ek) & Hr).
    exists o. split; [reflexivity|]. apply filter_In. split; [exact Ho|].
    apply is_candidate_spec. repeat split; auto.
    rewrite Ek. now apply in_map.
Qed.

Lemma no_candidate_without_requests (db : database)
    (author_id course offered_group : value) (o : GroupOfferRow) :
  is_candidate db author_id course offered_group [] o = false.
Proof. unfold is_candidate. cbn [existsb]. now rewrite andb_false_r. Qed.

(** C3. For every author_id, course and offered_group, and whatever offers
    the store holds, get_candidates_for_group_exchange called with an empty
    requested_groups collection returns the absent sentinel and raises
    nothing: the statement has an empty membership list and three bound
    parameters, and matches no row. *)
Theorem no_requested_group_matches_nothing
    (author_id course : string) (offered_group : Z) (db : database) :
  get_candidates_for_group_exchange sqlite author_id course offered_group
    (Collection []) db
  = {| store := db;
       trace := [Connect;
                 Execute (FIND_GROUP_EXCHANGE_CANDIDATES "")
                   [VStr author_id; VStr course; VInt offered_group] None;
                 Close];
       result := inr None |}.
Proof.
  rewrite get_candidates_run. cbn [map List.length app].
  rewrite filter_nothing; [reflexivity|].
  intros o _. apply no_candidate_without_requests.
Qed.

(** ** Inserting an offer with its requests *)

Lemma request_for_new (user_id course : string) (k k' : Z) :
  request_for (VStr user_id) (VStr course) (VInt k') (new_request user_id course k)
  = Z.eqb k k'.
Proof.
  unfold request_for, request_of, new_request. cbn.
  now rewrite !String.eqb_refl.
Qed.

Lemma taken_after_insert (user_id course : string) (k : Z)
    (table : list GroupRequestRow) (rest : list Z) :
  forallb (fun k' => negb (existsb (request_for (VStr user_id) (VStr course) (VInt k'))
                                   (table ++ [new_request user_id course k]))) rest
  = forallb (fun k' => negb (existsb (request_for (VStr user_id) (VStr course) (VInt k'))
                                     table)) rest
    && negb (existsb (Z.eqb k) rest).
Proof.
  induction rest as [|k' rest IH]; [reflexivity|].
  cbn [forallb existsb]. rewrite IH, existsb_app. cbn [existsb]. clear IH.
  rewrite request_for_new, orb_false_r.
  generalize (forallb (fun k' => negb (existsb (request_for (VStr user_id) (VStr course)
                                                  (VInt k')) table)) rest).
  generalize (existsb (request_for (VStr user_id) (VStr course) (VInt k')) table).
  generalize (existsb (Z.eqb k) rest). generalize (Z.eqb k k').
  now intros [] [] [] [].
Qed.

(** One turn of the loop over the requested groups. *)
Lemma request_step (user_id course : string) (k : Z) (m : DatabaseManager) :
  (execute sqlite INSERT_GROUP_REQUEST [VStr user_id; VStr course; VInt k] ;; ret tt) m
  = if existsb (request_for (VStr user_id) (VStr course) (VInt k)) (GroupRequest (pending m))
    then (record (Execute INSERT_GROUP_REQUEST [VStr user_id; VStr course; VInt k]
                    (Some unique_error)) m,
          inl (SqliteError unique_error))
    else ({| stored := stored m;
             pending := with_GroupRequest
                          (GroupRequest (pending m) ++ [new_request user_id course k])
                          (pending m);
             journal := journal m
                        ++ [Execute INSERT_GROUP_REQUEST
                              [VStr user_id; VStr course; VInt k] None] |},
          inr tt).
Proof.
  unfold bind, execute, ret, sqlite.
  now destruct (existsb _ (GroupRequest (pending m))).
Qed.

(** The loop over the requested groups: it runs to its end when the
    groups are distinct and none of the requests is in the table, and stops
    on a constraint violation otherwise, the file untouched either way. *)
Lemma request_loop (user_id course : string) (groups : list Z) (m : DatabaseManager) :
  exists m' r,
    for_each groups (fun group_nr =>
      execute sqlite INSERT_GROUP_REQUEST [VStr user_id; VStr course; VInt group_nr] ;;
      ret tt) m = (m', r)
    /\ stored m' = stored m
    /\ if distinct groups
          && forallb (fun k => negb (existsb (request_for (VStr user_id) (VStr course)
                                                (VInt k))
                                       (GroupRequest (pending m)))) groups
       then r = inr tt
            /\ pending m'
               = with_GroupRequest
                   (GroupRequest (pending m) ++ map (new_request user_id course) groups)
                   (pending m)
            /\ journal m'
               = journal m
                 ++ map (fun k => Execute INSERT_GROUP_REQUEST
                                    [VStr user_id; VStr course; VInt k] None) groups
       else r = inl (SqliteError unique_error)
            /\ commits (journal m') = commits (journal m).
Proof.
  revert m. induction groups as [|k rest IH]; intro m.
  - exists m, (inr tt). cbn. unfold ret. rewrite !app_nil_r.
    repeat split. now destruct (pending m).
  - cbn [for_each distinct forallb]. unfold bind at 1.
    rewrite request_step.
    destruct (existsb (request_for (VStr user_id) (VStr course) (VInt k))
                (GroupRequest (pending m))) eqn:Taken.
    + eexists. eexists. split; [reflexivity|]. split; [reflexivity|].
      cbn [negb]. rewrite andb_false_r. split; [reflexivity|].
      unfold record. cbn [journal]. rewrite commits_app. cbn. auto with arith.
    + match goal with
      | |- context [for_each rest ?body ?m1] => destruct (IH m1) as (m' & r & Hrun & Hs & Hr)
      end.
      exists m', r. split; [exact Hrun|]. split; [exact Hs|].
      cbn [pending stored journal with_GroupRequest GroupRequest] in Hr.
      rewrite taken_after_insert in Hr. cbn [negb andb].
      destruct (existsb (Z.eqb k) rest), (distinct rest), (forallb _ rest);
        cbn [negb andb] in *;
        try (destruct Hr as [-> Hc]; split; [reflexivity|];
             rewrite Hc, commits_app; cbn; auto with arith).
      destruct Hr as (-> & Hp & Hj). split; [reflexivity|].
      rewrite Hp, Hj. cbn [map]. rewrite <- !app_assoc. now split.
Qed.

(** C2. For every user_id, course, offered_group and requested_groups,
    add_group_offer_and_requests works inside one scope with a single commit
    at its end.  On any storage engine, a call that raises leaves the store
    as it was and has committed nothing.  On the modelled engine: when no
    key of the operation is taken, the call returns, its journal is the
    offer insert, one request insert per requested group, then the commit,
    and the store has gained exactly one GroupOffer row and one GroupRequest
    row per requested group; otherwise an insert fails on its key, the
    violation is raised, and the store is unchanged. *)
Theorem add_group_offer_and_requests_all_or_nothing
    (user_id course : string) (offered_group : Z) (requested_groups : iterable)
    (db : database) :
  (forall query_engine e,
     result (add_group_offer_and_requests query_engine user_id course offered_group
               requested_groups db) = inl e ->
     store (add_group_offer_and_requests query_engine user_id course offered_group
              requested_groups db) = db
     /\ commits (trace (add_group_offer_and_requests query_engine user_id course
                          offered_group requested_groups db)) = O)
  /\ let groups := fst (iterate requested_groups) in
     let added := add_group_offer_and_requests sqlite user_id course offered_group
                    requested_groups db in
     if keys_are_free user_id course groups db
     then result added = inr tt
          /\ store added
             = with_GroupRequest
                 (GroupRequest db ++ map (new_request user_id course) groups)
                 (with_GroupOffer
                    (GroupOffer db ++ [new_offer user_id course offered_group]) db)
          /\ trace added
             = Connect
               :: Execute INSERT_GROUP_OFFER
                    [VStr user_id; VStr course; VInt offered_group] None
               :: map (fun k => Execute INSERT_GROUP_REQUEST
                                  [VStr user_id; VStr course; VInt k] None) groups
               ++ [Commit; Close]
     else result added = inl (SqliteError unique_error)
          /\ store added = db
          /\ commits (trace added) = O.
Proof.
  split.
  - intros query_engine e He.
    pose proof (add_group_offer_and_requests_commits_last query_engine user_id course
                  offered_group requested_groups db) as H.
    now rewrite He in H.
  - intros groups added. unfold added, add_group_offer_and_requests.
    fold groups.
    match goal with
    | |- context [with_DatabaseManager ?body db] =>
        destruct (body {| stored := db; pending := db; journal := [Connect] |})
          as [m r] eqn:B;
        rewrite (scope_run body db m r B)
    end.
    cbn [result store trace]. unfold keys_are_free.
    unfold bind at 1 in B. unfold execute at 1 in B. cbn [pending sqlite] in B.
    destruct (existsb (offer_of (VStr user_id) (VStr course)) (GroupOffer db)) eqn:Taken.
    + injection B as <- <-. cbn. repeat split.
    + cbn [negb andb]. unfold bind at 1 in B.
      match type of B with
      | context [for_each groups ?body ?m1] =>
          destruct (request_loop user_id course groups m1) as (m' & r' & Hrun & Hs & Hr)
      end.
      rewrite Hrun in B.
      cbn [pending stored journal with_GroupOffer GroupRequest] in Hr, Hs.
      destruct (distinct groups
                && forallb (fun k => negb (existsb (request_for (VStr user_id)
                                                      (VStr course) (VInt k))
                                             (GroupRequest db))) groups).
      * destruct Hr as (-> & Hp & Hj). unfold commit in B. injection B as <- <-.
        cbn [stored journal]. rewrite Hp, Hj. unfold new_offer. cbn [app].
        rewrite <- !app_assoc. repeat split.
      * destruct Hr as (-> & Hc). injection B as <- <-.
        rewrite Hs, commits_app, Hc. repeat split.
Qed.

(** ** Removing an offer with its requests *)

Lemma no_offer_left (user_id course : value) (offers : list GroupOfferRow) :
  filter (offer_of user_id course)
    (filter (fun o => negb (offer_of user_id course o)) offers) = [].
Proof.
  apply filter_nothing. intros o Ho. apply filter_In in Ho as [_ Ho].
  now apply negb_true_iff in Ho.
Qed.

Lemma no_request_left (user_id course : value) (requests : list GroupRequestRow) :
  filter (request_of user_id course)
    (filter (fun r => negb (request_of user_id course r)) requests) = [].
Proof.
  apply filter_nothing. intros r Hr. apply filter_In in Hr as [_ Hr].
  now apply negb_true_iff in Hr.
Qed.

(** C4. For every user_id and course, remove_group_exchange_offer deletes
    the GroupOffer row and every GroupRequest row of that (user, course) pair
    in one scope with a single commit after both deletes.  On any storage
    engine the two deletes become durable together or not at all: a call
    that raises leaves the store as it was, a call that returns has run both
    and committed once.  On the modelled engine the call returns, no offer
    and no request of the pair is left, the other rows are untouched, and
    get_group_exchange_message(user_id, course) then returns the absent
    sentinel. *)
Theorem remove_group_exchange_offer_removes_both
    (user_id course : string) (db : database) :
  (forall query_engine,
     match result (remove_group_exchange_offer query_engine user_id course db) with
     | inl _ =>
         store (remove_group_exchange_offer query_engine user_id course db) = db
         /\ commits (trace (remove_group_exchange_offer query_engine user_id course db)) = O
     | inr _ =>
         exists db1 rows1 db2 rows2,
           query_engine REMOVE_GROUP_EXCHANGE_OFFER [VStr user_id; VStr course] db
           = inr (db1, rows1)
           /\ query_engine REMOVE_GROUP_EXCHANGE_REQUESTS [VStr user_id; VStr course] db1
              = inr (db2, rows2)
           /\ store (remove_group_exchange_offer query_engine user_id course db) = db2
           /\ trace (remove_group_exchange_offer query_engine user_id course db)
              = [Connect;
                 Execute REMOVE_GROUP_EXCHANGE_OFFER [VStr user_id; VStr course] None;
                 Execute REMOVE_GROUP_EXCHANGE_REQUESTS [VStr user_id; VStr course] None;
                 Commit; Close]
     end)
  /\ let removed := remove_group_exchange_offer sqlite user_id course db in
     result removed = inr tt
     /\ store removed
        = with_GroupRequest
            (filter (fun r => negb (request_of (VStr user_id) (VStr course) r))
               (GroupRequest db))
            (with_GroupOffer
               (filter (fun o => negb (offer_of (VStr user_id) (VStr course) o))
                  (GroupOffer db)) db)
     /\ filter (offer_of (VStr user_id) (VStr course)) (GroupOffer (store removed)) = []
     /\ filter (request_of (VStr user_id) (VStr course)) (GroupRequest (store removed)) = []
     /\ result (get_group_exchange_message sqlite user_id course (store removed)) = inr None.
Proof.
  split; [intro; apply remove_group_exchange_offer_commits_last|].
  cbn zeta.
  assert (E : remove_group_exchange_offer sqlite user_id course db
              = {| store := with_GroupRequest
                              (filter (fun r => negb (request_of (VStr user_id)
                                                        (VStr course) r))
                                 (GroupRequest db))
                              (with_GroupOffer
                                 (filter (fun o => negb (offer_of (VStr user_id)
                                                           (VStr course) o))
                                    (GroupOffer db)) db);
                   trace := [Connect;
                             Execute REMOVE_GROUP_EXCHANGE_OFFER
                               [VStr user_id; VStr course] None;
                             Execute REMOVE_GROUP_EXCHANGE_REQUESTS
                               [VStr user_id; VStr course] None;
                             Commit; Close];
                   result := inr tt |}) by reflexivity.
  rewrite E. cbn [result store].
  split; [reflexivity|]. split; [reflexivity|].
  cbn [GroupOffer GroupRequest with_GroupRequest with_GroupOffer].
  split; [apply no_offer_left|]. split; [apply no_request_left|].
  unfold get_group_exchange_message, with_DatabaseManager, bind, execute.
  cbn [pending sqlite GroupOffer with_GroupRequest with_GroupOffer].
  now rewrite no_offer_left.
Qed.

(** ** Modmail *)

(** C7. For every message id m already present in the store, calling
    add_modmail(m, author, timestamp) again raises the constraint violation
    to the caller, commits nothing, and leaves the store, the original row
    of m included, exactly as it was. *)
Theorem add_modmail_rejects_a_known_id
    (msg_id : Z) (author timestamp : string) (db : database) :
  existsb (has_modmail (VInt msg_id)) (Modmail db) = true ->
  add_modmail sqlite msg_id author timestamp db
  = {| store := db;
       trace := [Connect;
                 Execute INSERT_MODMAIL [VInt msg_id; VStr author; VStr timestamp]
                   (Some unique_error);
                 Close];
       result := inl (SqliteError unique_error) |}.
Proof.
  intro Known.
  unfold add_modmail, with_DatabaseManager, bind, execute.
  cbn [pending sqlite]. now rewrite Known.
Qed.

Lemma add_modmail_witness :
  let db := store (add_modmail sqlite 5 "sam#0001" "2020-10-01 12:00:00" empty_database) in
  existsb (has_modmail (VInt 5)) (Modmail db) = true
  /\ add_modmail sqlite 5 "sam#0002" "2020-10-02 08:30:00" db
     = {| store := db;
          trace := [Connect;
                    Execute INSERT_MODMAIL
                      [VInt 5; VStr "sam#0002"; VStr "2020-10-02 08:30:00"]
                      (Some unique_error);
                    Close];
          result := inl (SqliteError unique_error) |}.
Proof.
  split; [reflexivity|].
  apply (add_modmail_rejects_a_known_id 5 "sam#0002" "2020-10-02 08:30:00").
  reflexivity.
Defined.

(** ** Bot-only channels *)

(** C8, at a channel with no bot-only row: is_botonly returns the integer
    0, a false value that is not a boolean. *)
Theorem is_botonly_default_is_the_integer_zero :
  result (is_botonly sqlite {| id := 7 |} empty_database) = inr (VInt 0)
  /\ is_bool (VInt 0) = false
  /\ truthy (VInt 0) = false
  /\ VInt 0 <> VBool false.
Proof. repeat split. discriminate. Qed.

(** Whatever the engine holds, the branch taken when no row comes back
    returns the integer 0. *)
Lemma is_botonly_without_row (channel : TextChannel) (db : database) :
  filter (on_channel (VInt (id channel))) (BotOnly db) = [] ->
  result (is_botonly sqlite channel db) = inr (VInt 0).
Proof.
  intro H. unfold is_botonly, with_DatabaseManager, bind, execute.
  cbn [pending sqlite]. now rewrite H.
Qed.

Lemma set_botonly_lookup (channel_id state : value) (db : database) :
  filter (on_channel channel_id) (BotOnly (set_botonly channel_id state db))
  = [{| ChannelId := channel_id; State := state |}].
Proof.
  unfold set_botonly. cbn [BotOnly with_BotOnly].
  rewrite filter_app, filter_nothing.
  - cbn. unfold on_channel. cbn. now rewrite value_eqb_refl.
  - intros r Hr. apply filter_In in Hr as [_ Hr]. now apply negb_true_iff in Hr.
Qed.

(** Up to truthiness the toggle behaves as described: the lookup is true
    after an activation and false after a deactivation. *)
Lemma botonly_toggle (channel : TextChannel) (db : database) :
  result (is_botonly sqlite channel (store (activate_botonly sqlite channel db)))
  = inr (VInt 1)
  /\ result (is_botonly sqlite channel (store (deactivate_botonly sqlite channel db)))
     = inr (VInt 0).
Proof.
  unfold is_botonly, activate_botonly, deactivate_botonly, with_DatabaseManager,
    bind, execute, commit.
  cbn [pending sqlite stored store].
  rewrite !set_botonly_lookup. now split.
Qed.

(** ** The operations at work *)

Lemma init_witness :
  one_script "init_db.sql" = Some init_db_sql
  /\ let built := __init__ migrated_engine one_script (Some "sam.db") (Some "init_db.sql")
                    empty_database in
     let statements := split ";" init_db_sql in
     join ";" statements = init_db_sql
     /\ Forall (fun statement => contains ";" statement = false) statements
     /\ result built = inr tt
     /\ exists failures : list (option Error),
          List.length failures = List.length statements
          /\ trace built
             = Connect :: flat_map attempt (combine statements failures) ++ [Close].
Proof.
  split; [reflexivity|].
  apply (init_attempts_every_statement migrated_engine one_script
           "sam.db" "init_db.sql" init_db_sql empty_database).
  reflexivity.
Defined.

Example init_skips_the_failing_statement :
  trace (__init__ migrated_engine one_script (Some "sam.db") (Some "init_db.sql")
           empty_database)
  = [Connect;
     ExecuteScript "CREATE TABLE ModuleRole" (Some (OperationalError "table already exists"));
     Printed "Command could not be executed, skipping it: table already exists";
     ExecuteScript "PRAGMA foreign_keys" None;
     ExecuteScript "" None;
     Close].
Proof. reflexivity. Qed.

Example init_without_a_file_name :
  result (__init__ migrated_engine one_script None (Some "init_db.sql") empty_database)
  = inl (SqliteError (BaseError "Database filepath and/or filename hasn't been set.")).
Proof. reflexivity. Qed.

Example section8_matching :
  result (get_candidates_for_group_exchange sqlite "A" "X" 1 (Collection [2; 3]%Z) section8)
  = inr (Some [[VStr "B"; VStr "200"]]).
Proof. reflexivity. Qed.

Example section8_no_requested_group :
  result (get_candidates_for_group_exchange sqlite "A" "X" 1 (Collection []) section8)
  = inr None.
Proof. reflexivity. Qed.

(** An iterator is used up by [list(requested_groups)]: no placeholder is
    left to build, and the engine refuses the bindings. *)
Example section8_used_up_iterator :
  result (get_candidates_for_group_exchange sqlite "A" "X" 1 (Iterator [2; 3]%Z) section8)
  = inl (SqliteError bindings_error).
Proof. reflexivity. Qed.

Example offer_with_two_requests :
  let added := add_group_offer_and_requests sqlite "D" "X" 4 (Iterator [1; 2]%Z) section8 in
  result added = inr tt
  /\ commits (trace added) = 1%nat
  /\ List.length (GroupOffer (store added)) = 4%nat
  /\ List.length (GroupRequest (store added)) = 6%nat.
Proof. repeat split. Qed.

Example offer_with_a_repeated_request :
  let added := add_group_offer_and_requests sqlite "D" "X" 4 (Iterator [1; 1]%Z) section8 in
  result added = inl (SqliteError unique_error)
  /\ store added = section8
  /\ trace added
     = [Connect;
        Execute INSERT_GROUP_OFFER [VStr "D"; VStr "X"; VInt 4] None;
        Execute INSERT_GROUP_REQUEST [VStr "D"; VStr "X"; VInt 1] None;
        Execute INSERT_GROUP_REQUEST [VStr "D"; VStr "X"; VInt 1] (Some unique_error);
        Close].
Proof. repeat split. Qed.

Example removal_then_lookup :
  result (get_group_exchange_message sqlite "B" "X" section8) = inr (Some (VStr "200"))
  /\ result (get_group_exchange_message sqlite "B" "X"
               (store (remove_group_exchange_offer sqlite "B" "X" section8)))
     = inr None.
Proof. split; reflexivity. Qed.

Example message_in_a_quiet_room :
  fst (on_message sqlite 1 {| author := 2; channel := quiet_room |} quiet_store)
  = [Delete {| author := 2; channel := quiet_room |}]
  /\ fst (on_message sqlite 1 {| author := 1; channel := quiet_room |} quiet_store) = []
  /\ fst (on_message sqlite 1 {| author := 2; channel := {| id := 43 |} |} quiet_store) = [].
Proof. repeat split. Qed.

Lemma on_message_witness :
  let own := {| author := 1; channel := quiet_room |} in
  let other := {| author := 2; channel := quiet_room |} in
  (author own = 1%Z
   /\ on_message sqlite 1 own quiet_store
      = ([], {| store := quiet_store; trace := []; result := inr tt |}))
  /\ (In (Delete other) (fst (on_message sqlite 1 other quiet_store))
      /\ other = other
      /\ author other <> 1%Z
      /\ exists flag,
           result (is_botonly sqlite (channel other) quiet_store) = inr flag
           /\ truthy flag = true).
Proof.
  intros own other. split.
  - split; [reflexivity|].
    apply (proj1 (on_message_spares_the_bot sqlite 1 own quiet_store)). reflexivity.
  - split; [left; reflexivity|].
    apply (proj2 (on_message_spares_the_bot sqlite 1 other quiet_store) other).
    left. reflexivity.
Defined.

Lemma add_group_offer_and_requests_witness :
  let added := add_group_offer_and_requests sqlite "D" "X" 4 (Iterator [1; 1]%Z) section8 in
  result added = inl (SqliteError unique_error)
  /\ store added = section8
  /\ commits (trace added) = O.
Proof.
  intro added. split; [reflexivity|].
  apply (proj1 (add_group_offer_and_requests_all_or_nothing
                  "D" "X" 4 (Iterator [1; 1]%Z) section8)
           sqlite (SqliteError unique_error)).
  reflexivity.
Defined.

(** * Beyond the claims *)

(** ** Python's [str] *)

Lemma append_nil_r (s : string) : String.append s EmptyString = s.
Proof. induction s as [|c s IH]; simpl; [reflexivity | now rewrite IH]. Qed.

Lemma append_assoc (s t u : string) :
  String.append (String.append s t) u = String.append s (String.append t u).
Proof. induction s as [|c s IH]; simpl; [reflexivity | now rewrite IH]. Qed.

Lemma length_append (s t : string) :
  String.length (String.append s t) = (String.length s + String.length t)%nat.
Proof. induction s as [|c s IH]; simpl; [reflexivity | now rewrite IH]. Qed.

Lemma startswith_iff (s prefix : string) :
  startswith s prefix = true <-> exists rest, s = String.append prefix rest.
Proof.
  revert s. induction prefix as [|p prefix IH]; intro s; simpl.
  - split; [intros _; now exists s | reflexivity].
  - destruct s as [|c s].
    + split; [discriminate | intros (rest & H); discriminate].
    + rewrite andb_true_iff, Ascii.eqb_eq, IH. split.
      * intros (-> & rest & ->). now exists rest.
      * intros (rest & H). injection H as -> ->. split; [reflexivity | now exists rest].
Qed.



Lemma drop_append (p q : string) : drop (String.length p) (String.append p q) = q.
Proof. induction p as [|c p IH]; simpl; [reflexivity | exact IH]. Qed.

Lemma drop_drop (n k : nat) (s : string) : drop n (drop k s) = drop (k + n) s.
Proof.
  revert s. induction k as [|k IH]; intro s; simpl; [reflexivity|].
  destruct s as [|c s]; [now destruct n | apply IH].
Qed.

(** Where a text is found, it is: the string is what comes before the
    index, the text, and what follows it. *)
Lemma first_index_found (sub s : string) (i : nat) :
  first_index sub s = Some i ->
  s = String.append (take i s) (String.append sub (drop (i + String.length sub) s)).
Proof.
  revert i. induction s as [|c s IH]; intro i; simpl.
  - destruct (startswith EmptyString sub) eqn:E; [|discriminate].
    intro H. injection H as <-. apply startswith_iff in E as (rest & E).
    destruct sub; [reflexivity | discriminate].
  - destruct (startswith (String c s) sub) eqn:E.
    + intro H. injection H as <-. apply startswith_iff in E as (rest & E).
      cbn [take Nat.add String.append]. rewrite E at 2. now rewrite drop_append.
    + destruct (first_index sub s) as [j|] eqn:F; [|discriminate].
      intro H. injection H as <-. cbn [take Nat.add drop String.append].
      f_equal. now apply IH.
Qed.

Lemma first_index_app (sub p q : string) :
  exists i, first_index sub (String.append p (String.append sub q)) = Some i.
Proof.
  induction p as [|c p (i & IH)]; cbn [String.append].
  - exists O. destruct (String.append sub q) eqn:E; simpl;
      destruct (startswith _ sub) eqn:S; try reflexivity;
      exfalso; rewrite <- E in S;
      (assert (T : startswith (String.append sub q) sub = true)
         by (apply startswith_iff; now exists q)); congruence.
  - simpl. destruct (startswith _ sub); [now exists O|].
    rewrite IH. now exists (S i).
Qed.

(** [sub in s] says that [s] is some text, [sub], and some more text. *)
Lemma str_in_iff (sub s : string) :
  str_in sub s = true
  <-> exists before after, s = String.append before (String.append sub after).
Proof.
  unfold str_in. split.
  - destruct (first_index sub s) as [i|] eqn:F; [|discriminate]. intros _.
    apply first_index_found in F. eauto.
  - intros (p & q & ->). now destruct (first_index_app sub p q) as (i & ->).
Qed.


Lemma str_in_char (c : ascii) (s : string) :
  str_in (String c EmptyString) s = contains c s.
Proof.
  unfold str_in. induction s as [|d s IH]; [reflexivity|].
  cbn [first_index startswith contains].
  destruct (Ascii.eqb d c); cbn [andb orb].
  - now destruct s.
  - rewrite <- IH. replace (match s with EmptyString | _ => false end) with false
      by now destruct s.
    now destruct (first_index (String c EmptyString) s).
Qed.

Lemma contains_count (c : ascii) (s : string) :
  contains c s = negb (Nat.eqb (count_char c s) O).
Proof.
  induction s as [|d s IH]; [reflexivity|].
  cbn [contains count_char]. destruct (Ascii.eqb d c); [reflexivity | exact IH].
Qed.

Lemma length_split (sep : ascii) (s : string) :
  List.length (split sep s) = S (count_char sep s).
Proof.
  induction s as [|c s IH]; [reflexivity|].
  cbn [split count_char]. destruct (Ascii.eqb c sep).
  - cbn. now rewrite IH.
  - destruct (split sep s); [discriminate IH | exact IH].
Qed.

(** ** The embed command *)

(** X1. The embed command reads its text as a title and a description
    around a [|]: without one the title is empty and the description is the
    whole text; with exactly one the two pieces are free of [|] and give the
    text back when joined by it; with more than one the unpacking raises
    ValueError and no embed is built. *)
Theorem embed_title_and_description (color : Z) (text : string) :
  match count_char "|" text with
  | O => embed color text = inr {| title := ""; description := text; color := color |}
  | 1%nat =>
      exists title description,
        embed color text
        = inr {| title := title; description := description; color := color |}
        /\ text = String.append title (String.append "|" description)
        /\ count_char "|" title = O
        /\ count_char "|" description = O
  | _ => embed color text = inl (ValueError "too many values to unpack (expected 2)")
  end.
Proof.
  unfold embed. rewrite str_in_char, contains_count.
  pose proof (length_split "|" text) as Hlen.
  pose proof (join_split "|" text) as Hjoin.
  pose proof (split_pieces "|" text) as Hpieces.
  destruct (count_char "|" text) as [|[|n]]; cbn [Nat.eqb negb].
  - reflexivity.
  - destruct (split "|" text) as [|t [|d [|x rest]]]; try discriminate Hlen.
    exists t, d. split; [reflexivity|]. split; [now rewrite <- Hjoin|].
    inversion Hpieces as [|? ? Ht Hrest]; subst.
    inversion Hrest as [|? ? Hd _]; subst.
    rewrite contains_count in Ht, Hd.
    split; [now destruct (count_char "|" t) | now destruct (count_char "|" d)].
  - destruct (split "|" text) as [|t [|d [|x rest]]]; try discriminate Hlen.
    reflexivity.
Qed.

(** ** Pastebin links *)

Lemma is_pastebin_link_spec (json_string : string) :
  is_pastebin_link json_string = true
  <-> (exists before after,
         json_string = String.append before (String.append "pastebin.com" after))
      /\ contains "{" json_string = false
      /\ contains "}" json_string = false.
Proof.
  unfold is_pastebin_link. cbn [existsb].
  rewrite andb_true_iff, negb_true_iff, orb_false_r, orb_false_iff, str_in_iff,
    !str_in_char.
  tauto.
Qed.

(** X2. is_pastebin_link accepts exactly the strings that hold the text
    pastebin.com somewhere and hold neither an opening nor a closing brace;
    a JSON object is never taken for a link. *)
Theorem is_pastebin_link_iff (json_string : string) :
  is_pastebin_link json_string = true
  <-> (exists before after,
         json_string = String.append before (String.append "pastebin.com" after))
      /\ contains "{" json_string = false
      /\ contains "}" json_string = false.
Proof. apply is_pastebin_link_spec. Qed.

Lemma length_take (n : nat) (s : string) :
  (n <= String.length s)%nat -> String.length (take n s) = n.
Proof.
  revert s. induction n as [|n IH]; intros [|c s] H; simpl in *; try reflexivity; try lia.
  rewrite IH; lia.
Qed.

Lemma first_index_bound (sub s : string) (i : nat) :
  first_index sub s = Some i -> (i + String.length sub <= String.length s)%nat.
Proof.
  revert i. induction s as [|c s IH]; intro i; simpl.
  - destruct (startswith EmptyString sub) eqn:E; [|discriminate].
    intro H. injection H as <-. apply startswith_iff in E as (rest & E).
    destruct sub; [simpl; lia | discriminate].
  - destruct (startswith (String c s) sub) eqn:E.
    + intro H. injection H as <-. apply startswith_iff in E as (rest & E).
      apply (f_equal String.length) in E. rewrite length_append in E. simpl in *. lia.
    + destruct (first_index sub s) as [j|] eqn:F; [|discriminate].
      intro H. injection H as <-. specialize (IH j eq_refl). simpl. lia.
Qed.

Lemma take_append_more (p q : string) (n : nat) :
  take (String.length p + n) (String.append p q) = String.append p (take n q).
Proof. induction p as [|c p IH]; simpl; [reflexivity | now rewrite IH]. Qed.

Lemma raw_is_inserted (before after : string) :
  str_in "raw" (String.append before (String.append "raw/" after)) = true.
Proof. apply str_in_iff. now exists before, (String "/" after). Qed.

Lemma parse_pastebin_link_raw (requests_get : string -> string) (url : string) :
  str_in "raw" (requested (parse_pastebin_link requests_get url)) = true.
Proof.
  unfold parse_pastebin_link. cbn [requested].
  destruct (str_in "raw" url) eqn:E; cbn [negb]; [exact E | apply raw_is_inserted].
Qed.

(** X3. parse_pastebin_link always asks for a URL that holds the text raw,
    returns the text that request gives, and leaves a URL it has already
    rewritten as it is. *)
Theorem parse_pastebin_link_asks_for_raw (requests_get : string -> string) (url : string) :
  let got := parse_pastebin_link requests_get url in
  str_in "raw" (requested got) = true
  /\ text got = requests_get (requested got)
  /\ requested (parse_pastebin_link requests_get (requested got)) = requested got.
Proof.
  cbn zeta. pose proof (parse_pastebin_link_raw requests_get url) as H.
  split; [exact H|]. split; [reflexivity|].
  unfold parse_pastebin_link at 1. cbn [requested]. now rewrite H.
Qed.

(** X4. For a URL without the text raw, parse_pastebin_link asks for the
    URL with raw/ put in right behind the first .com/; when the URL holds no
    .com/ at all, find gives -1 and raw/ lands behind the fourth character. *)
Theorem parse_pastebin_link_inserts_raw (requests_get : string -> string) (url : string) :
  str_in "raw" url = false ->
  requested (parse_pastebin_link requests_get url)
  = match first_index ".com/" url with
    | Some i =>
        String.append (take i url) (String.append ".com/raw/" (drop (i + 5) url))
    | None => String.append (take 4 url) (String.append "raw/" (drop 4 url))
    end.
Proof.
  intro Hraw. unfold parse_pastebin_link. cbn [requested]. rewrite Hraw. cbn [negb].
  unfold find, slice_to, slice_from, slice_bound.
  destruct (first_index ".com/" url) as [i|] eqn:F; [|reflexivity].
  replace (Z.of_nat i + 5 <? 0)%Z with false by (symmetry; apply Z.ltb_ge; lia).
  replace (Z.to_nat (Z.of_nat i + 5)) with (i + 5)%nat by lia.
  pose proof (first_index_bound _ _ _ F) as Hbound. cbn [String.length] in Hbound.
  pose proof (first_index_found _ _ _ F) as Hfound. cbn [String.length] in Hfound.
  assert (Htake : take (i + 5) url = String.append (take i url) ".com/").
  { rewrite Hfound at 1.
    rewrite <- (length_take i url) at 1 by lia.
    now rewrite take_append_more. }
  rewrite Htake, append_assoc. reflexivity.
Qed.

Lemma parse_pastebin_link_witness :
  str_in "raw" "https://pastebin.com/Ab12" = false
  /\ requested (parse_pastebin_link (fun url => url) "https://pastebin.com/Ab12")
     = "https://pastebin.com/raw/Ab12".
Proof.
  split; [reflexivity|].
  rewrite (parse_pastebin_link_inserts_raw (fun url => url) "https://pastebin.com/Ab12");
    reflexivity.
Defined.

(** X5. embed_by_json makes no request for a text that holds a brace and
    hands that text itself to the JSON parser; whenever it makes a request
    it makes one, for a URL that holds raw, and the parser gets the text
    that came back. *)
Theorem embed_by_json_requests (requests_get : string -> string) (json_string : string) :
  (contains "{" json_string || contains "}" json_string = true ->
   embed_by_json requests_get json_string = ([], json_string))
  /\ (forall url,
        In url (fst (embed_by_json requests_get json_string)) ->
        embed_by_json requests_get json_string = ([url], requests_get url)
        /\ str_in "raw" url = true
        /\ is_pastebin_link json_string = true).
Proof.
  unfold embed_by_json. split.
  - intro H. destruct (is_pastebin_link json_string) eqn:E; [|reflexivity].
    apply is_pastebin_link_spec in E as (_ & Ho & Hc). rewrite Ho, Hc in H. discriminate.
  - intro url. destruct (is_pastebin_link json_string); [|intros []].
    cbn [fst]. intros [<- | []].
    split; [reflexivity|]. split; [|reflexivity].
    apply parse_pastebin_link_raw.
Qed.

Lemma embed_by_json_witness :
  (contains "{" "{}" || contains "}" "{}" = true
   /\ embed_by_json (fun url => url) "{}" = ([], "{}"))
  /\ (In "pastebin.com/raw/Ab12" (fst (embed_by_json (fun url => url) "pastebin.com/Ab12"))
      /\ embed_by_json (fun url => url) "pastebin.com/Ab12"
         = (["pastebin.com/raw/Ab12"], "pastebin.com/raw/Ab12")
      /\ str_in "raw" "pastebin.com/raw/Ab12" = true
      /\ is_pastebin_link "pastebin.com/Ab12" = true).
Proof.
  split.
  - split; [reflexivity|].
    apply (proj1 (embed_by_json_requests (fun url => url) "{}")). reflexivity.
  - split; [left; reflexivity|].
    apply (proj2 (embed_by_json_requests (fun url => url) "pastebin.com/Ab12")).
    left. reflexivity.
Defined.

(** ** Cog names *)























(** ** The connector on any storage engine *)

(** X10. Each method that sends one statement and commits (add_module_role,
    remove_module_role, add_modmail, change_modmail_status,
    update_group_exchange_message_id, activate_botonly, deactivate_botonly)
    is all or nothing on any storage engine: when the engine refuses the
    statement, that very error reaches the caller, nothing is committed and
    the store is as before; when it accepts, the store is what the engine
    wrote, committed once. *)
Theorem one_statement_writes_are_all_or_nothing
    (query_engine : query -> list value -> database -> Error + (database * list row))
    (db : database) (role_id msg_id : Z) (author timestamp user_id course message_id : string)
    (status : ModmailStatus) (channel : TextChannel) :
  add_module_role query_engine role_id db
  = one_statement_write query_engine INSERT_MODULE_ROLE [VInt role_id] db
  /\ remove_module_role query_engine role_id db
     = one_statement_write query_engine REMOVE_MODULE_ROLE [VInt role_id] db
  /\ add_modmail query_engine msg_id author timestamp db
     = one_statement_write query_engine INSERT_MODMAIL
         [VInt msg_id; VStr author; VStr timestamp] db
  /\ change_modmail_status query_engine msg_id status db
     = one_statement_write query_engine CHANGE_MODMAIL_STATUS
         [ModmailStatus_value status; VInt msg_id] db
  /\ update_group_exchange_message_id query_engine user_id course message_id db
     = one_statement_write query_engine UPDATE_GROUP_MESSAGE_ID
         [VStr message_id; VStr user_id; VStr course] db
  /\ activate_botonly query_engine channel db
     = one_statement_write query_engine ACTIVATE_BOTONLY_FOR_CHANNEL [VInt (id channel)] db
  /\ deactivate_botonly query_engine channel db
     = one_statement_write query_engine DEACTIVATE_BOTONLY_FOR_CHANNEL [VInt (id channel)] db.
Proof.
  unfold add_module_role, remove_module_role, add_modmail, change_modmail_status,
    update_group_exchange_message_id, activate_botonly, deactivate_botonly,
    one_statement_write, with_DatabaseManager, bind, execute, commit, record.
  cbn [pending stored journal].
  repeat split;
    match goal with
    | |- context [query_engine ?q ?params db] =>
        destruct (query_engine q params db) as [e | [written rows]]; reflexivity
    end.
Qed.

(** X11. The three lookups that hand back rows (get_all_modmail_with_status,
    get_candidates_for_group_exchange, get_group_exchange_for_user) never
    return an empty list: on any storage engine the absent sentinel stands
    for no row, and a list that comes back has a first row. *)
Theorem row_lookups_never_return_an_empty_list
    (query_engine : query -> list value -> database -> Error + (database * list row))
    (db : database) (status : ModmailStatus) (author_id course : string)
    (offered_group user_id : Z) (requested_groups : iterable) :
  result (get_all_modmail_with_status query_engine status db) <> inr (Some [])
  /\ result (get_candidates_for_group_exchange query_engine author_id course offered_group
               requested_groups db) <> inr (Some [])
  /\ result (get_group_exchange_for_user query_engine user_id db) <> inr (Some []).
Proof.
  unfold get_all_modmail_with_status, get_candidates_for_group_exchange,
    get_group_exchange_for_user, with_DatabaseManager, bind, execute, fetchall, ret.
  repeat split; try destruct requested_groups as [items | items]; cbn [iterate pending];
    match goal with
    | |- context [query_engine ?q ?params db] =>
        destruct (query_engine q params db) as [e | [written [|r rows]]]; discriminate
    end.
Qed.

(** X12. get_candidates_for_group_exchange walks requested_groups twice.
    Given a one-shot iterator, the first walk takes every group into the
    parameter list and the second finds nothing: the statement goes out with
    an empty placeholder list and 3 + n bound parameters, on any engine; the
    modelled engine refuses it as soon as there is one group. *)
Theorem a_one_shot_iterator_leaves_no_placeholder
    (author_id course : string) (offered_group : Z) (items : list Z) (db : database) :
  (forall query_engine,
     exists failure,
       trace (get_candidates_for_group_exchange query_engine author_id course offered_group
                (Iterator items) db)
       = [Connect;
          Execute (FIND_GROUP_EXCHANGE_CANDIDATES "")
            ([VStr author_id; VStr course; VInt offered_group] ++ map VInt items) failure;
          Close])
  /\ (items <> [] ->
      result (get_candidates_for_group_exchange sqlite author_id course offered_group
                (Iterator items) db)
      = inl (SqliteError bindings_error)).
Proof.
  split.
  - intro query_engine.
    unfold get_candidates_for_group_exchange, with_DatabaseManager, bind, execute,
      fetchall, ret, record.
    cbn [iterate pending map join journal].
    destruct (query_engine _ _ db) as [e | [written rows]].
    + now exists (Some e).
    + exists None. now destruct rows.
  - intro H. destruct items as [|k items]; [contradiction|]. reflexivity.
Qed.

Lemma a_one_shot_iterator_witness :
  [2; 3]%Z <> []
  /\ result (get_candidates_for_group_exchange sqlite "A" "X" 1 (Iterator [2; 3]%Z) section8)
     = inl (SqliteError bindings_error).
Proof.
  split; [discriminate|].
  apply (proj2 (a_one_shot_iterator_leaves_no_placeholder "A" "X" 1 [2; 3]%Z section8)).
  discriminate.
Defined.

(** X13. The on_message handler never writes: on any storage engine it
    commits nothing and leaves the store as it found it, whoever wrote the
    message and whatever the lookup gives or raises. *)
Theorem on_message_never_writes
    (query_engine : query -> list value -> database -> Error + (database * list row))
    (bot_user : Z) (ctx : Message) (db : database) :
  store (snd (on_message query_engine bot_user ctx db)) = db
  /\ commits (trace (snd (on_message query_engine bot_user ctx db))) = O.
Proof.
  unfold on_message.
  destruct (Z.eqb (author ctx) bot_user); [now split|].
  destruct (is_botonly_reads query_engine (channel ctx) db) as [Hs Hc].
  destruct (result (is_botonly query_engine (channel ctx) db)); now split.
Qed.

(** ** Round trips on the modelled storage engine *)

Lemma filter_of_none {A : Type} (f : A -> bool) (l : list A) :
  existsb f l = false -> filter f l = [].
Proof.
  induction l as [|x l IH]; simpl; [reflexivity|].
  intro H. apply orb_false_iff in H as [Hx Hl]. rewrite Hx. now apply IH.
Qed.

Lemma status_round_trip (status : ModmailStatus) :
  ModmailStatus_of (ModmailStatus_value status) = inr status.
Proof. now destruct status. Qed.

Lemma change_modmail_status_store (msg_id : Z) (status : ModmailStatus) (db : database) :
  change_modmail_status sqlite msg_id status db
  = {| store := with_Modmail
                  (map (restamp (VInt msg_id) (ModmailStatus_value status)) (Modmail db)) db;
       trace := [Connect;
                 Execute CHANGE_MODMAIL_STATUS [ModmailStatus_value status; VInt msg_id] None;
                 Commit; Close];
       result := inr tt |}.
Proof. reflexivity. Qed.

Lemma get_modmail_status_first (msg_id : Z) (db : database) :
  result (get_modmail_status sqlite msg_id db)
  = match filter (has_modmail (VInt msg_id)) (Modmail db) with
    | [] => inr None
    | r :: _ =>
        match ModmailStatus_of (Status r) with
        | inr status => inr (Some status)
        | inl e => inl e
        end
    end.
Proof.
  unfold get_modmail_status, with_DatabaseManager, bind, execute, fetchone.
  cbn [pending sqlite].
  destruct (filter (has_modmail (VInt msg_id)) (Modmail db)) as [|r rest]; [reflexivity|].
  cbn. now destruct (ModmailStatus_of (Status r)).
Qed.

Lemma has_modmail_restamp (msg_id status : value) (r : ModmailRow) :
  has_modmail msg_id (restamp msg_id status r) = has_modmail msg_id r.
Proof.
  unfold restamp. destruct (has_modmail msg_id r) eqn:E; [|exact E].
  exact E.
Qed.

Lemma filter_restamped (msg_id status : value) (l : list ModmailRow) :
  filter (has_modmail msg_id) (map (restamp msg_id status) l)
  = map (restamp msg_id status) (filter (has_modmail msg_id) l).
Proof.
  induction l as [|r l IH]; [reflexivity|].
  cbn [map filter]. rewrite has_modmail_restamp.
  destruct (has_modmail msg_id r); [cbn [map]; now rewrite IH | exact IH].
Qed.

Lemma restamp_nothing (msg_id status : value) (l : list ModmailRow) :
  existsb (has_modmail msg_id) l = false -> map (restamp msg_id status) l = l.
Proof.
  induction l as [|r l IH]; [reflexivity|].
  cbn [existsb map]. intro H. apply orb_false_iff in H as [Hr Hl].
  unfold restamp at 1. now rewrite Hr, IH.
Qed.

Lemma restamp_twice (msg_id status : value) (l : list ModmailRow) :
  map (restamp msg_id status) (map (restamp msg_id status) l)
  = map (restamp msg_id status) l.
Proof.
  rewrite map_map. apply map_ext. intro r.
  unfold restamp at 1. rewrite has_modmail_restamp.
  unfold restamp. now destruct (has_modmail msg_id r).
Qed.

(** X14. A ticket's status can be read back: after add_modmail with a
    message id the store does not hold yet, get_modmail_status gives Open for
    that id; after change_modmail_status it gives the status just set. *)
Theorem modmail_status_is_read_back
    (msg_id : Z) (author timestamp : string) (db : database) :
  existsb (has_modmail (VInt msg_id)) (Modmail db) = false ->
  let opened := add_modmail sqlite msg_id author timestamp db in
  result opened = inr tt
  /\ result (get_modmail_status sqlite msg_id (store opened)) = inr (Some OPEN)
  /\ forall status,
       result (get_modmail_status sqlite msg_id
                 (store (change_modmail_status sqlite msg_id status (store opened))))
       = inr (Some status).
Proof.
  intros Hnew opened.
  assert (E : opened
              = {| store := with_Modmail
                              (Modmail db
                                 ++ [{| MsgId := VInt msg_id; Author := VStr author;
                                        Timestamp := VStr timestamp;
                                        Status := ModmailStatus_value OPEN |}]) db;
                   trace := [Connect;
                             Execute INSERT_MODMAIL
                               [VInt msg_id; VStr author; VStr timestamp] None;
                             Commit; Close];
                   result := inr tt |}).
  { unfold opened, add_modmail, with_DatabaseManager, bind, execute, commit.
    cbn [pending sqlite]. now rewrite Hnew. }
  rewrite E. cbn [result store]. split; [reflexivity|].
  assert (F : filter (has_modmail (VInt msg_id))
                (Modmail db
                   ++ [{| MsgId := VInt msg_id; Author := VStr author;
                          Timestamp := VStr timestamp;
                          Status := ModmailStatus_value OPEN |}])
              = [{| MsgId := VInt msg_id; Author := VStr author;
                    Timestamp := VStr timestamp; Status := ModmailStatus_value OPEN |}]).
  { rewrite filter_app, (filter_of_none _ _ Hnew). cbn. unfold has_modmail. cbn.
    now rewrite Z.eqb_refl. }
  split.
  - rewrite get_modmail_status_first. cbn [Modmail with_Modmail]. now rewrite F.
  - intro status. rewrite change_modmail_status_store. cbn [store].
    rewrite get_modmail_status_first. cbn [Modmail with_Modmail].
    rewrite filter_restamped, F. cbn [map]. unfold restamp, has_modmail. cbn [MsgId].
    cbn [value_eqb]. rewrite Z.eqb_refl. cbn [Status]. now rewrite status_round_trip.
Qed.

Lemma modmail_status_witness :
  existsb (has_modmail (VInt 5)) (Modmail empty_database) = false
  /\ let opened := add_modmail sqlite 5 "sam#0001" "2020-10-01 12:00:00" empty_database in
     result opened = inr tt
     /\ result (get_modmail_status sqlite 5 (store opened)) = inr (Some OPEN)
     /\ forall status,
          result (get_modmail_status sqlite 5
                    (store (change_modmail_status sqlite 5 status (store opened))))
          = inr (Some status).
Proof.
  split; [reflexivity|].
  apply (modmail_status_is_read_back 5 "sam#0001" "2020-10-01 12:00:00" empty_database).
  reflexivity.
Defined.

(** X15. change_modmail_status creates nothing: for a message id the store
    does not hold it returns normally, the store is unchanged and
    get_modmail_status still gives the absent sentinel. *)
Theorem change_modmail_status_of_an_unknown_id
    (msg_id : Z) (status : ModmailStatus) (db : database) :
  existsb (has_modmail (VInt msg_id)) (Modmail db) = false ->
  let changed := change_modmail_status sqlite msg_id status db in
  result changed = inr tt
  /\ store changed = db
  /\ result (get_modmail_status sqlite msg_id (store changed)) = inr None.
Proof.
  intros Hnew changed. unfold changed. rewrite change_modmail_status_store.
  cbn [result store]. rewrite (restamp_nothing _ _ _ Hnew).
  split; [reflexivity|]. split; [now destruct db|].
  rewrite get_modmail_status_first. cbn [Modmail with_Modmail].
  now rewrite (filter_of_none _ _ Hnew).
Qed.

Lemma change_modmail_status_witness :
  existsb (has_modmail (VInt 9)) (Modmail section8) = false
  /\ let changed := change_modmail_status sqlite 9 CLOSED section8 in
     result changed = inr tt
     /\ store changed = section8
     /\ result (get_modmail_status sqlite 9 (store changed)) = inr None.
Proof.
  split; [reflexivity|].
  apply (change_modmail_status_of_an_unknown_id 9 CLOSED section8). reflexivity.
Defined.

(** X16. change_modmail_status is idempotent: setting the same status
    twice leaves the store as setting it once does. *)
Theorem change_modmail_status_twice
    (msg_id : Z) (status : ModmailStatus) (db : database) :
  store (change_modmail_status sqlite msg_id status
           (store (change_modmail_status sqlite msg_id status db)))
  = store (change_modmail_status sqlite msg_id status db).
Proof.
  rewrite !change_modmail_status_store. cbn [store Modmail with_Modmail].
  unfold with_Modmail. cbn. now rewrite restamp_twice.
Qed.

Lemma filter_keeps_all {A : Type} (f : A -> bool) (l : list A) :
  existsb (fun x => negb (f x)) l = false -> filter f l = l.
Proof.
  induction l as [|x l IH]; simpl; [reflexivity|].
  intro H. apply orb_false_iff in H as [Hx Hl].
  apply negb_false_iff in Hx. rewrite Hx. now rewrite IH.
Qed.

(** X17. Module roles: adding a role the store does not hold succeeds and
    puts it in the role set, adding it again is refused with the store
    unchanged, and removing it brings the store back to what it was;
    removing a role the store does not hold is no error and changes nothing. *)
Theorem module_role_is_added_and_removed (role_id : Z) (db : database) :
  existsb (value_eqb (VInt role_id)) (ModuleRole db) = false ->
  let added := add_module_role sqlite role_id db in
  result added = inr tt
  /\ In (VInt role_id) (ModuleRole (store added))
  /\ add_module_role sqlite role_id (store added)
     = {| store := store added;
          trace := [Connect;
                    Execute INSERT_MODULE_ROLE [VInt role_id] (Some unique_error);
                    Close];
          result := inl (SqliteError unique_error) |}
  /\ store (remove_module_role sqlite role_id (store added)) = db
  /\ result (remove_module_role sqlite role_id db) = inr tt
  /\ store (remove_module_role sqlite role_id db) = db.
Proof.
  intros Hnew added.
  assert (E : added
              = {| store := with_ModuleRole (ModuleRole db ++ [VInt role_id]) db;
                   trace := [Connect; Execute INSERT_MODULE_ROLE [VInt role_id] None;
                             Commit; Close];
                   result := inr tt |}).
  { unfold added, add_module_role, with_DatabaseManager, bind, execute, commit.
    cbn [pending sqlite]. now rewrite Hnew. }
  assert (Hkeep : filter (fun r => negb (value_eqb (VInt role_id) r)) (ModuleRole db)
                  = ModuleRole db).
  { apply filter_keeps_all. rewrite <- Hnew.
    clear. induction (ModuleRole db) as [|x l IH]; [reflexivity|].
    cbn [existsb]. now rewrite negb_involutive, IH. }
  rewrite E. cbn [result store].
  split; [reflexivity|].
  split; [cbn [ModuleRole with_ModuleRole]; apply in_or_app; right; now left|].
  split.
  { unfold add_module_role, with_DatabaseManager, bind, execute.
    cbn [pending sqlite ModuleRole with_ModuleRole].
    rewrite existsb_app. cbn [existsb value_eqb]. now rewrite Z.eqb_refl, orb_true_r. }
  split.
  { unfold remove_module_role, with_DatabaseManager, bind, execute, commit.
    cbn [pending sqlite store stored ModuleRole with_ModuleRole].
    rewrite filter_app, Hkeep. cbn [filter value_eqb]. rewrite Z.eqb_refl. cbn [negb].
    rewrite app_nil_r. now destruct db. }
  split; [reflexivity|].
  unfold remove_module_role, with_DatabaseManager, bind, execute, commit.
  cbn [pending sqlite store stored]. rewrite Hkeep. now destruct db.
Qed.

Lemma module_role_witness :
  existsb (value_eqb (VInt 77)) (ModuleRole section8) = false
  /\ store (remove_module_role sqlite 77 (store (add_module_role sqlite 77 section8)))
     = section8.
Proof.
  split; [reflexivity|].
  apply (module_role_is_added_and_removed 77 section8). reflexivity.
Defined.

(** ** The message id of an offer *)

Lemma get_group_exchange_message_first (user_id course : string) (db : database) :
  result (get_group_exchange_message sqlite user_id course db)
  = inr match filter (offer_of (VStr user_id) (VStr course)) (GroupOffer db) with
        | [] => None
        | o :: _ => Some (offer_MessageId o)
        end.
Proof.
  unfold get_group_exchange_message, with_DatabaseManager, bind, execute, fetchone.
  cbn [pending sqlite].
  now destruct (filter (offer_of (VStr user_id) (VStr course)) (GroupOffer db)).
Qed.

Lemma offer_of_new (user_id course : string) (offered_group : Z) :
  offer_of (VStr user_id) (VStr course) (new_offer user_id course offered_group) = true.
Proof. unfold offer_of, new_offer. cbn. now rewrite !String.eqb_refl. Qed.

(** The store after a successful add_group_offer_and_requests. *)
Lemma add_group_offer_and_requests_adds (user_id course : string) (offered_group : Z)
    (requested_groups : list Z) (db : database) :
  keys_are_free user_id course requested_groups db = true ->
  let added := add_group_offer_and_requests sqlite user_id course offered_group
                 (Collection requested_groups) db in
  result added = inr tt
  /\ store added
     = with_GroupRequest
         (GroupRequest db ++ map (new_request user_id course) requested_groups)
         (with_GroupOffer (GroupOffer db ++ [new_offer user_id course offered_group]) db).
Proof.
  intros Hfree added. unfold added, add_group_offer_and_requests. cbn [iterate fst].
  match goal with
  | |- context [with_DatabaseManager ?body db] =>
      destruct (body {| stored := db; pending := db; journal := [Connect] |})
        as [m r] eqn:B;
      rewrite (scope_run body db m r B)
  end.
  cbn [result store]. unfold keys_are_free in Hfree.
  apply andb_true_iff in Hfree as [Hfree Hrequests].
  apply andb_true_iff in Hfree as [Hoffer Hdistinct].
  apply negb_true_iff in Hoffer.
  unfold bind at 1 in B. unfold execute at 1 in B. cbn [pending sqlite] in B.
  rewrite Hoffer in B. unfold bind at 1 in B.
  match type of B with
  | context [for_each requested_groups ?body ?m1] =>
      destruct (request_loop user_id course requested_groups m1)
        as (m' & r' & Hrun & Hs & Hr)
  end.
  rewrite Hrun in B.
  cbn [pending stored journal with_GroupOffer GroupRequest] in Hr, Hs.
  rewrite Hdistinct, Hrequests in Hr. cbn [andb] in Hr.
  destruct Hr as (-> & Hp & Hj). unfold commit in B. injection B as <- <-.
  cbn [stored]. rewrite Hp. now split.
Qed.

Lemma update_group_exchange_message_id_store (user_id course message_id : string)
    (db : database) :
  update_group_exchange_message_id sqlite user_id course message_id db
  = {| store := with_GroupOffer
                  (map (readdress (VStr user_id) (VStr course) (VStr message_id))
                     (GroupOffer db)) db;
       trace := [Connect;
                 Execute UPDATE_GROUP_MESSAGE_ID
                   [VStr message_id; VStr user_id; VStr course] None;
                 Commit; Close];
       result := inr tt |}.
Proof. reflexivity. Qed.

Lemma offer_of_readdress (user_id course message_id : value) (o : GroupOfferRow) :
  offer_of user_id course (readdress user_id course message_id o)
  = offer_of user_id course o.
Proof.
  unfold readdress. destruct (offer_of user_id course o) eqn:E; exact E.
Qed.

Lemma filter_readdressed (user_id course message_id : value) (l : list GroupOfferRow) :
  filter (offer_of user_id course) (map (readdress user_id course message_id) l)
  = map (readdress user_id course message_id) (filter (offer_of user_id course) l).
Proof.
  induction l as [|o l IH]; [reflexivity|].
  cbn [map filter]. rewrite offer_of_readdress.
  destruct (offer_of user_id course o); [cbn [map]; now rewrite IH | exact IH].
Qed.

(** X18. The message id is written in two steps: right after a successful
    add_group_offer_and_requests, get_group_exchange_message gives the
    placeholder undefined for the pair; after
    update_group_exchange_message_id it gives the id just written. *)
Theorem message_id_is_written_in_two_steps (user_id course : string) (offered_group : Z)
    (requested_groups : list Z) (db : database) :
  keys_are_free user_id course requested_groups db = true ->
  let added := add_group_offer_and_requests sqlite user_id course offered_group
                 (Collection requested_groups) db in
  result added = inr tt
  /\ result (get_group_exchange_message sqlite user_id course (store added))
     = inr (Some (VStr "undefined"))
  /\ forall message_id,
       result (get_group_exchange_message sqlite user_id course
                 (store (update_group_exchange_message_id sqlite user_id course message_id
                           (store added))))
       = inr (Some (VStr message_id)).
Proof.
  intros Hfree added.
  destruct (add_group_offer_and_requests_adds user_id course offered_group
              requested_groups db Hfree) as [Hresult Hstore].
  fold added in Hresult, Hstore.
  split; [exact Hresult|].
  unfold keys_are_free in Hfree.
  apply andb_true_iff in Hfree as [Hfree _].
  apply andb_true_iff in Hfree as [Hoffer _].
  apply negb_true_iff in Hoffer.
  rewrite Hstore. split.
  - rewrite get_group_exchange_message_first.
    cbn [GroupOffer with_GroupRequest with_GroupOffer].
    rewrite filter_app, (filter_of_none _ _ Hoffer). cbn [filter app].
    now rewrite offer_of_new.
  - intro message_id. rewrite update_group_exchange_message_id_store. cbn [store].
    rewrite get_group_exchange_message_first.
    cbn [GroupOffer with_GroupRequest with_GroupOffer].
    rewrite filter_readdressed, filter_app, (filter_of_none _ _ Hoffer).
    cbn [filter app]. rewrite offer_of_new. cbn [map].
    unfold readdress. now rewrite offer_of_new.
Qed.

Lemma message_id_witness :
  keys_are_free "D" "X" [1; 2]%Z section8 = true
  /\ let added := add_group_offer_and_requests sqlite "D" "X" 4 (Collection [1; 2]%Z)
                    section8 in
     result added = inr tt
     /\ result (get_group_exchange_message sqlite "D" "X" (store added))
        = inr (Some (VStr "undefined"))
     /\ forall message_id,
          result (get_group_exchange_message sqlite "D" "X"
                    (store (update_group_exchange_message_id sqlite "D" "X" message_id
                              (store added))))
          = inr (Some (VStr message_id)).
Proof.
  split; [reflexivity|].
  apply (message_id_is_written_in_two_steps "D" "X" 4 [1; 2]%Z section8). reflexivity.
Defined.

(** ** Withdrawing an offer *)

Lemma remove_group_exchange_offer_store (user_id course : string) (db : database) :
  store (remove_group_exchange_offer sqlite user_id course db)
  = with_GroupRequest
      (filter (fun r => negb (request_of (VStr user_id) (VStr course) r)) (GroupRequest db))
      (with_GroupOffer
         (filter (fun o => negb (offer_of (VStr user_id) (VStr course) o)) (GroupOffer db))
         db).
Proof. reflexivity. Qed.

Lemma other_key (user_id course other_user other_course : string) (o : GroupOfferRow) :
  other_user <> user_id \/ other_course <> course ->
  offer_of (VStr other_user) (VStr other_course) o = true ->
  offer_of (VStr user_id) (VStr course) o = false.
Proof.
  unfold offer_of. intros Hother H.
  apply andb_true_iff in H as [Hu Hc]. apply value_eqb_eq in Hu, Hc.
  rewrite Hu, Hc. cbn [value_eqb].
  destruct Hother as [N | N]; apply String.eqb_neq in N; rewrite N;
    [reflexivity | apply andb_false_r].
Qed.

Lemma filter_filter_other (user_id course other_user other_course : string)
    (l : list GroupOfferRow) :
  other_user <> user_id \/ other_course <> course ->
  filter (offer_of (VStr other_user) (VStr other_course))
    (filter (fun o => negb (offer_of (VStr user_id) (VStr course) o)) l)
  = filter (offer_of (VStr other_user) (VStr other_course)) l.
Proof.
  intro Hother. induction l as [|o l IH]; [reflexivity|].
  cbn [filter].
  destruct (offer_of (VStr other_user) (VStr other_course) o) eqn:E.
  - rewrite (other_key _ _ _ _ o Hother E). cbn [negb filter]. now rewrite E, IH.
  - destruct (negb (offer_of (VStr user_id) (VStr course) o)); [cbn [filter]; rewrite E|];
      exact IH.
Qed.

(** X19. remove_group_exchange_offer touches one pair only: for any other
    user or any other course, get_group_exchange_message gives after the
    removal what it gave before. *)
Theorem removal_leaves_other_offers_alone
    (user_id course other_user other_course : string) (db : database) :
  other_user <> user_id \/ other_course <> course ->
  result (get_group_exchange_message sqlite other_user other_course
            (store (remove_group_exchange_offer sqlite user_id course db)))
  = result (get_group_exchange_message sqlite other_user other_course db).
Proof.
  intro Hother. rewrite !get_group_exchange_message_first.
  rewrite remove_group_exchange_offer_store.
  cbn [GroupOffer with_GroupRequest with_GroupOffer].
  now rewrite filter_filter_other.
Qed.

Lemma removal_leaves_other_offers_witness :
  ("A" <> "B" \/ "X" <> "X")
  /\ result (get_group_exchange_message sqlite "A" "X"
               (store (remove_group_exchange_offer sqlite "B" "X" section8)))
     = inr (Some (VStr "100")).
Proof.
  split; [left; discriminate|].
  rewrite (removal_leaves_other_offers_alone "B" "X" "A" "X" section8);
    [reflexivity | left; discriminate].
Defined.

(** X20. A withdrawn offer is never proposed: after
    remove_group_exchange_offer(user_id, course), no row that
    get_candidates_for_group_exchange returns for that course, for any
    requester, carries that user id. *)
Theorem a_withdrawn_offer_is_no_candidate
    (user_id course author_id : string) (offered_group : Z) (requested_groups : list Z)
    (db : database) (pair : row) :
  In pair (rows_or_nothing
             (result (get_candidates_for_group_exchange sqlite author_id course
                        offered_group (Collection requested_groups)
                        (store (remove_group_exchange_offer sqlite user_id course db))))) ->
  hd_error pair <> Some (VStr user_id).
Proof.
  rewrite get_candidates_run. cbn [result]. unfold rows_or_nothing.
  match goal with
  | |- In pair match rows_or_None ?l with _ => _ end -> _ =>
      replace (match rows_or_None l with Some rows => rows | None => [] end) with l
        by now destruct l
  end.
  intro H. apply in_map_iff in H as (o & <- & Ho).
  apply filter_In in Ho as [Ho Hc].
  rewrite remove_group_exchange_offer_store in Ho.
  cbn [GroupOffer with_GroupRequest with_GroupOffer] in Ho.
  apply filter_In in Ho as [_ Hkept]. apply negb_true_iff in Hkept.
  apply is_candidate_spec in Hc as (_ & Hcourse & _).
  cbn [hd_error]. intro E. injection E as E.
  unfold offer_of in Hkept. rewrite E, Hcourse, !value_eqb_refl in Hkept. discriminate.
Qed.

Lemma a_withdrawn_offer_witness :
  In [VStr "B"; VStr "200"]
    (rows_or_nothing
       (result (get_candidates_for_group_exchange sqlite "A" "X" 1 (Collection [2; 3]%Z)
                  (store (remove_group_exchange_offer sqlite "C" "X" section8)))))
  /\ hd_error [VStr "B"; VStr "200"] <> Some (VStr "C").
Proof.
  split; [left; reflexivity|].
  apply (a_withdrawn_offer_is_no_candidate "C" "X" "A" 1 [2; 3]%Z section8).
  left. reflexivity.
Defined.

(** ** The botonly command *)

Lemma is_botonly_value (channel : TextChannel) (db : database) :
  is_botonly sqlite channel db
  = {| store := db;
       trace := [Connect; Execute IS_CHANNEL_BOTONLY [VInt (id channel)] None; Close];
       result := inr match filter (on_channel (VInt (id channel))) (BotOnly db) with
                     | [] => VInt 0
                     | r :: _ => State r
                     end |}.
Proof.
  unfold is_botonly, with_DatabaseManager, bind, execute, fetchone.
  cbn [pending sqlite].
  now destruct (filter (on_channel (VInt (id channel))) (BotOnly db)).
Qed.

Lemma is_botonly_after_switch (channel : TextChannel) (state : value) (db : database) :
  result (is_botonly sqlite channel (set_botonly (VInt (id channel)) state db))
  = inr state.
Proof. rewrite is_botonly_value. cbn [result]. now rewrite set_botonly_lookup. Qed.

(** The store and the word of the embed after the command, from the
    value the lookup gave before it. *)
Lemma botonly_run (EMBED_COLOR_BOTONLY : Z) (target : TextChannel)
    (ctx_channel : TextChannel) (channel : option TextChannel) (db : database) :
  target = match channel with Some given => given | None => ctx_channel end ->
  exists before,
    result (is_botonly sqlite target db) = inr before
    /\ botonly EMBED_COLOR_BOTONLY sqlite ctx_channel channel db
       = (set_botonly (VInt (id target)) (if truthy before then VInt 0 else VInt 1) db,
          inr (target,
               _build_botonly_embed EMBED_COLOR_BOTONLY
                 (if truthy before then "deaktiviert" else "aktiviert"))).
Proof.
  intros ->. unfold botonly.
  set (target := match channel with Some given => given | None => ctx_channel end).
  rewrite is_botonly_value. cbn [result store].
  set (before := match filter (on_channel (VInt (id target))) (BotOnly db) with
                 | [] => VInt 0
                 | r :: _ => State r
                 end).
  exists before. split; [reflexivity|].
  destruct (truthy before); reflexivity.
Qed.

(** X21. The botonly command flips the flag of its target channel (the
    channel given, or the channel of the invocation when none is given):
    where the lookup gave a true value the channel is bot-only no more and
    the embed says deaktiviert, where it gave a false value the channel is
    bot-only now and the embed says aktiviert; the embed goes to the target
    channel, and the lookup after the command gives the new flag. *)
Theorem botonly_command_flips_the_flag (EMBED_COLOR_BOTONLY : Z)
    (ctx_channel : TextChannel) (channel : option TextChannel) (db : database) :
  let target := match channel with Some given => given | None => ctx_channel end in
  exists before,
    result (is_botonly sqlite target db) = inr before
    /\ snd (botonly EMBED_COLOR_BOTONLY sqlite ctx_channel channel db)
       = inr (target,
              _build_botonly_embed EMBED_COLOR_BOTONLY
                (if truthy before then "deaktiviert" else "aktiviert"))
    /\ result (is_botonly sqlite target
                 (fst (botonly EMBED_COLOR_BOTONLY sqlite ctx_channel channel db)))
       = inr (if truthy before then VInt 0 else VInt 1).
Proof.
  intro target.
  destruct (botonly_run EMBED_COLOR_BOTONLY target ctx_channel channel db eq_refl)
    as (before & Hbefore & Hrun).
  exists before. rewrite Hrun. cbn [fst snd].
  split; [exact Hbefore|]. split; [reflexivity|].
  apply is_botonly_after_switch.
Qed.

(** X22. The command and the handler together: after one botonly command
    on a channel, a message that someone other than the bot posts there is
    deleted exactly when the channel was not bot-only before; after a second
    command the handler treats the message as it did before the first. *)
Theorem botonly_command_then_message (EMBED_COLOR_BOTONLY bot_user : Z)
    (ctx : Message) (db : database) :
  author ctx <> bot_user ->
  exists before,
    result (is_botonly sqlite (channel ctx) db) = inr before
    /\ fst (on_message sqlite bot_user ctx db)
       = (if truthy before then [Delete ctx] else [])
    /\ fst (on_message sqlite bot_user ctx
              (fst (botonly EMBED_COLOR_BOTONLY sqlite (channel ctx) None db)))
       = (if truthy before then [] else [Delete ctx])
    /\ fst (on_message sqlite bot_user ctx
              (fst (botonly EMBED_COLOR_BOTONLY sqlite (channel ctx) None
                      (fst (botonly EMBED_COLOR_BOTONLY sqlite (channel ctx) None db)))))
       = fst (on_message sqlite bot_user ctx db).
Proof.
  intro Hother. apply Z.eqb_neq in Hother.
  destruct (botonly_run EMBED_COLOR_BOTONLY (channel ctx) (channel ctx) None db eq_refl)
    as (before & Hbefore & Hrun).
  exists before. split; [exact Hbefore|].
  assert (Hfirst : fst (on_message sqlite bot_user ctx db)
                   = (if truthy before then [Delete ctx] else [])).
  { unfold on_message. rewrite Hother, Hbefore. now destruct (truthy before). }
  split; [exact Hfirst|].
  rewrite Hrun. cbn [fst].
  assert (Hsecond : forall state held,
            fst (on_message sqlite bot_user ctx
                   (set_botonly (VInt (id (channel ctx))) state held))
            = (if truthy state then [Delete ctx] else [])).
  { intros state held. unfold on_message. rewrite Hother, is_botonly_after_switch.
    now destruct (truthy state). }
  split.
  - rewrite Hsecond. now destruct (truthy before).
  - destruct (botonly_run EMBED_COLOR_BOTONLY (channel ctx) (channel ctx) None
                (set_botonly (VInt (id (channel ctx)))
                   (if truthy before then VInt 0 else VInt 1) db) eq_refl)
      as (again & Hagain & Hrun2).
    rewrite Hrun2. cbn [fst]. rewrite Hsecond, Hfirst.
    rewrite is_botonly_after_switch in Hagain. injection Hagain as <-.
    now destruct (truthy before).
Qed.

Lemma botonly_command_witness :
  2%Z <> 1%Z
  /\ fst (on_message sqlite 1 {| author := 2; channel := quiet_room |}
            (fst (botonly 0 sqlite quiet_room None empty_database)))
     = [Delete {| author := 2; channel := quiet_room |}].
Proof.
  split; [discriminate|].
  destruct (botonly_command_then_message 0 1 {| author := 2; channel := quiet_room |}
              empty_database) as (before & Hbefore & _ & Hafter & _); [discriminate|].
  injection Hbefore as <-. exact Hafter.
Defined.

(** ** A new offer and its first match *)

(** X23. A new offer is found at once: after a successful
    add_group_offer_and_requests by one user, any other requester of the
    same course who offers one of the groups that user asked for, and asks
    for the group that user offers, gets that user back from
    get_candidates_for_group_exchange, with the message id still the
    placeholder undefined. *)
Theorem a_new_offer_is_found_by_its_match
    (user_id author_id course : string) (offered_group wanted_group : Z)
    (requested_groups wanted_groups : list Z) (db : database) :
  keys_are_free user_id course requested_groups db = true ->
  author_id <> user_id ->
  In wanted_group requested_groups ->
  In offered_group wanted_groups ->
  In [VStr user_id; VStr "undefined"]
    (rows_or_nothing
       (result (get_candidates_for_group_exchange sqlite author_id course wanted_group
                  (Collection wanted_groups)
                  (store (add_group_offer_and_requests sqlite user_id course offered_group
                            (Collection requested_groups) db))))).
Proof.
  intros Hfree Hother Hwanted Hoffered.
  destruct (add_group_offer_and_requests_adds user_id course offered_group
              requested_groups db Hfree) as [_ Hstore].
  cbn zeta in Hstore. rewrite Hstore, get_candidates_run. cbn [result].
  unfold rows_or_nothing.
  match goal with
  | |- In _ match rows_or_None ?l with _ => _ end =>
      replace (match rows_or_None l with Some rows => rows | None => [] end) with l
        by now destruct l
  end.
  apply in_map_iff. exists (new_offer user_id course offered_group).
  split; [reflexivity|]. apply filter_In.
  cbn [GroupOffer with_GroupRequest with_GroupOffer]. split.
  - apply in_or_app. right. now left.
  - apply is_candidate_spec. cbn [new_offer offer_UserId offer_Course offer_GroupNr].
    split; [intro E; injection E as E; now subst|].
    split; [reflexivity|].
    split; [now apply in_map|].
    exists (new_request user_id course wanted_group).
    cbn [GroupRequest with_GroupRequest]. split; [|now repeat split].
    apply in_or_app. right. now apply in_map.
Qed.

Lemma a_new_offer_witness :
  keys_are_free "D" "X" [1; 2]%Z section8 = true
  /\ "A" <> "D"
  /\ In 1%Z [1; 2]%Z
  /\ In 4%Z [3; 4]%Z
  /\ In [VStr "D"; VStr "undefined"]
       (rows_or_nothing
          (result (get_candidates_for_group_exchange sqlite "A" "X" 1
                     (Collection [3; 4]%Z)
                     (store (add_group_offer_and_requests sqlite "D" "X" 4
                               (Collection [1; 2]%Z) section8))))).
Proof.
  split; [reflexivity|]. split; [discriminate|].
  split; [now left|]. split; [right; now left|].
  apply (a_new_offer_is_found_by_its_match "D" "A" "X" 4 1 [1; 2]%Z [3; 4]%Z section8).
  - reflexivity.
  - discriminate.
  - now left.
  - right. now left.
Defined.
